(** * tools/analyze_gfortran_ast.py: the gfortran AST log scanner

    A shallow embedding of the script and the properties of its scan.

    Text is [string] (a sequence of 8-bit characters), the value [None] of
    the two rolling variables is [None : option string], standard output is
    the list of the printed lines (one element per [print] call), and an
    exception that nobody catches ends the computation with the output
    printed so far. *)

From Stdlib Require Import String Ascii List Bool Arith ZArith Lia.
Import ListNotations.
Local Open Scope string_scope.
Local Open Scope list_scope.

(** ** Characters and Python string operations *)

Module Py.

Definition newline : ascii := "010"%char.
Definition dquote : ascii := "034"%char.
Definition squote : ascii := "039"%char.
Definition dot_char : ascii := "."%char.

(** The one-character string holding a double quote. *)
Definition dq : string := String dquote EmptyString.

(** [\s] as [re] defines it on 8-bit text: space, [\t], [\n], [\v], [\f]
    and [\r].  On Python 3 text the class is wider (codes 28 to 31, 133
    and 160 as well); the lemmas below use of it only that it holds for
    the space and fails for the first letter of each literal. *)
Definition is_space (c : ascii) : bool :=
  let n := nat_of_ascii c in
  ((n =? 32) || ((9 <=? n) && (n <=? 13)))%nat.

(** [.] without DOTALL: every character except the newline. *)
Definition is_dot (c : ascii) : bool := negb (Ascii.eqb c newline).

(** [[^']] : every character except the apostrophe. *)
Definition not_squote (c : ascii) : bool := negb (Ascii.eqb c squote).

(** [needle in s] on strings. *)
Fixpoint contains (needle s : string) : bool :=
  String.prefix needle s ||
  match s with
  | EmptyString => false
  | String _ s' => contains needle s'
  end.

(** [x in xs] for a list of strings. *)
Definition In_list (x : string) (xs : list string) : bool :=
  existsb (String.eqb x) xs.

(** [s.split("\n")]: never empty, the separator removed. *)
Fixpoint split_newline (s : string) : list string :=
  match s with
  | EmptyString => [EmptyString]
  | String c s' =>
      if Ascii.eqb c newline then EmptyString :: split_newline s'
      else match split_newline s' with
           | l :: ls => String c l :: ls
           | [] => [String c EmptyString]
           end
  end.

(** [s.rsplit(".", 1)]: split once, at the last dot; [[s]] when there is
    none.  The helper returns the two sides of the last dot. *)
Fixpoint last_dot (s : string) : option (string * string) :=
  match s with
  | EmptyString => None
  | String c s' =>
      match last_dot s' with
      | Some (h, t) => Some (String c h, t)
      | None => if Ascii.eqb c dot_char then Some (EmptyString, s') else None
      end
  end.

Definition rsplit_dot_1 (s : string) : list string :=
  match last_dot s with
  | Some (h, t) => [h; t]
  | None => [s]
  end.

(** Truth value of a variable that holds [None] or a string. *)
Definition truthy (v : option string) : bool :=
  match v with
  | Some (String _ _) => true
  | Some EmptyString => false
  | None => false
  end.

End Py.

(** ** The regular expressions

    [re.match] anchors at the start and backtracks; each construct of the
    five patterns is a matcher in continuation-passing style: it consumes
    a prefix of the text and hands the rest to the continuation, trying the
    longest prefix first and shorter ones when the continuation fails.  A
    match yields group 1 (or [tt] for the patterns without a group). *)

Module Re.
Import Py.

Section Matchers.
Context {A : Type}.

Definition cont : Type := string -> option A.

(** A literal piece of the pattern. *)
Fixpoint lit (l : string) (k : cont) (s : string) : option A :=
  match l with
  | EmptyString => k s
  | String c l' =>
      match s with
      | String d s' => if Ascii.eqb c d then lit l' k s' else None
      | EmptyString => None
      end
  end.

(** [p*], greedy. *)
Fixpoint star (p : ascii -> bool) (k : cont) (s : string) : option A :=
  match s with
  | String c s' =>
      if p c then
        match star p k s' with
        | Some r => Some r
        | None => k s
        end
      else k s
  | EmptyString => k s
  end.

(** [p+], greedy. *)
Definition plus (p : ascii -> bool) (k : cont) (s : string) : option A :=
  match s with
  | String c s' => if p c then star p k s' else None
  | EmptyString => None
  end.

(** A group around [p*], greedy; the continuation receives the captured
    text. *)
Fixpoint star_group (p : ascii -> bool) (k : string -> cont) (s : string)
  : option A :=
  match s with
  | String c s' =>
      if p c then
        match star_group p (fun g => k (String c g)) s' with
        | Some r => Some r
        | None => k EmptyString s
        end
      else k EmptyString s
  | EmptyString => k EmptyString s
  end.

(** A group around [p+], greedy. *)
Definition plus_group (p : ascii -> bool) (k : string -> cont) (s : string)
  : option A :=
  match s with
  | String c s' =>
      if p c then star_group p (fun g => k (String c g)) s' else None
  | EmptyString => None
  end.

(** [$] closing the pattern: at the end of the text, or just before a
    newline that ends it. *)
Definition dollar (r : A) : cont :=
  fun s =>
    match s with
    | EmptyString => Some r
    | String c EmptyString => if Ascii.eqb c newline then Some r else None
    | String _ (String _ _) => None
    end.

(** End of a pattern that is open to the right. *)
Definition accept (r : A) : cont := fun _ => Some r.
End Matchers.

(** [re_procedure]: [^], [\s+], the literal [procedure name = ], group 1
    around [.*], [$]. *)
Definition re_procedure : string -> option string :=
  plus is_space (lit "procedure name = " (star_group is_dot dollar)).

(** [re_symbol]: [^], [\s+], the literal [symtree], [.*], the literal
    [ symbol: '], group 1 around [[^']+], the literal ['], [.*], [$]. *)
Definition re_symbol : string -> option string :=
  plus is_space
    (lit "symtree"
       (star is_dot
          (lit " symbol: '"
             (plus_group not_squote
                (fun g => lit "'" (star is_dot (dollar g))))))).

(** [re_attr]: [^], [\s+], the literal [attributes: ], group 1 around [.*],
    [$]. *)
Definition re_attr : string -> option string :=
  plus is_space (lit "attributes: " (star_group is_dot dollar)).

(** [re_open]: [^], [\s+], the literal [OPEN]. *)
Definition re_open : string -> option unit :=
  plus is_space (lit "OPEN" (accept tt)).

(** [re_close]: [^], [\s+], the literal [CLOSE]. *)
Definition re_close : string -> option unit :=
  plus is_space (lit "CLOSE" (accept tt)).

(** Truth value of a match object. *)
Definition matched {A : Type} (m : option A) : bool :=
  match m with
  | Some _ => true
  | None => false
  end.

End Re.

(** ** Effects: standard output and uncaught exceptions *)

Inductive exn : Type :=
| SystemExit (code : Z)
| IOError
| TypeError.

Module Run.

(** A computation prints lines and then either returns or raises. *)
Definition M (A : Type) : Type := (list string * (exn + A))%type.

Definition ret {A : Type} (a : A) : M A := ([], inr a).

Definition raise {A : Type} (e : exn) : M A := ([], inl e).

Definition bind {A B : Type} (m : M A) (f : A -> M B) : M B :=
  match m with
  | (out, inl e) => (out, inl e)
  | (out, inr a) => let (out', r) := f a in (out ++ out', r)
  end.

Definition print (s : string) : M unit := ([s], inr tt).

Definition when (b : bool) (m : M unit) : M unit :=
  if b then m else ret tt.

(** The printed lines and the way the computation ended. *)
Definition stdout {A : Type} (m : M A) : list string := fst m.
Definition result {A : Type} (m : M A) : exn + A := snd m.

(** Exit status of the interpreter: 0 after the last statement, the code
    of [sys.exit], 1 after a traceback. *)
Definition exit_status {A : Type} (m : M A) : Z :=
  match result m with
  | inr _ => 0%Z
  | inl (SystemExit code) => code
  | inl IOError => 1%Z
  | inl TypeError => 1%Z
  end.

End Run.

Declare Scope run_scope.
Delimit Scope run_scope with run.
Notation "x <- m ;; k" := (Run.bind m (fun x => k))
  (at level 61, m at next level, right associativity) : run_scope.
Notation "m ;; k" := (Run.bind m (fun _ => k))
  (at level 61, right associativity) : run_scope.
Local Open Scope run_scope.

(** ** The script *)

Import Py Re Run.

(** [a + b] where [a] is a string and [b] holds [None] or a string. *)
Definition str_add (a : string) (b : option string) : M string :=
  match b with
  | Some s => ret (a ++ s)%string
  | None => raise TypeError
  end.

(** The two rolling variables of [process_log_file]. *)
Record ScanState : Type := mkScanState {
  curr_procedure : option string;
  curr_symbol : option string
}.

Definition open_close_exceptions : list string :=
  ["cp_files"; "machine_gfortran"; "machine"].

(** [fn.rsplit(".",1)[0]] *)
Definition base_name (fn : string) : string :=
  nth 0 (rsplit_dot_1 fn) EmptyString.

(** The statement of the two attribute checks: [msg] is the sum, built
    from the left, of [fn], the text that opens the symbol's quotes,
    [curr_symbol], the text between the two names, [curr_procedure] and
    the closing text; then [print(msg)].  [what] is the last word of the
    message, [IMPLICIT-SAVE] or [IMPLICIT-TYPE]. *)
Definition print_symbol_msg (fn : string) (st : ScanState) (what : string)
  : M unit :=
  s1 <- str_add (fn ++ ": Symbol " ++ dq)%string (curr_symbol st) ;;
  s2 <- str_add (s1 ++ dq ++ " in procedure " ++ dq)%string
                (curr_procedure st) ;;
  print (s2 ++ dq ++ " is " ++ what)%string.

(** The statement of the [OPEN] and [CLOSE] checks: [msg] is the sum of
    [fn], the text up to the double quote, [curr_procedure] and one
    apostrophe; then [print(msg)].  [what] is [OPEN] or [CLOSE]. *)
Definition print_call_msg (fn : string) (st : ScanState) (what : string)
  : M unit :=
  s1 <- str_add (fn ++ ": direct call to " ++ what ++ " in procedure " ++ dq)%string
                (curr_procedure st) ;;
  print (s1 ++ "'")%string.

(** The four checks a line goes through when it is neither a procedure
    nor a symbol line. *)
Definition checks (fn : string) (st : ScanState) (line : string) : M unit :=
  when (matched (re_attr line) && truthy (curr_procedure st)
        && contains "IMPLICIT-SAVE" line
        && negb (contains "PARAMETER" line))
    (print_symbol_msg fn st "IMPLICIT-SAVE") ;;
  when (matched (re_attr line) && truthy (curr_procedure st)
        && contains "IMPLICIT-TYPE" line)
    (print_symbol_msg fn st "IMPLICIT-TYPE") ;;
  when (matched (re_open line) && truthy (curr_procedure st)
        && negb (In_list (base_name fn) open_close_exceptions))
    (print_call_msg fn st "OPEN") ;;
  when (matched (re_close line) && truthy (curr_procedure st)
        && negb (In_list (base_name fn) open_close_exceptions))
    (print_call_msg fn st "CLOSE").

(** The body of [for line in lines]; the state it returns is the one the
    next iteration starts from.  The first two branches end in
    [continue]. *)
Definition loop_body (fn : string) (st : ScanState) (line : string)
  : M ScanState :=
  match re_procedure line with
  | Some g => ret (mkScanState (Some g) (curr_symbol st))
  | None =>
      match re_symbol line with
      | Some g => ret (mkScanState (curr_procedure st) (Some g))
      | None => checks fn st line ;; ret st
      end
  end.

(** [for line in lines: ...] from a given state. *)
Fixpoint scan_lines (fn : string) (lines : list string) (st : ScanState)
  : M ScanState :=
  match lines with
  | [] => ret st
  | line :: rest => st' <- loop_body fn st line ;; scan_lines fn rest st'
  end.

Definition init_state : ScanState := mkScanState None None.

(** The file system as the script sees it: the text [open(fn).read()]
    returns, or nothing when the file cannot be opened or read. *)
Definition files : Type := string -> option string.

Definition read_file (fs : files) (fn : string) : M string :=
  match fs fn with
  | Some log => ret log
  | None => raise IOError
  end.

Definition process_log_file (fs : files) (fn : string) : M unit :=
  log <- read_file fs fn ;;
  scan_lines fn (split_newline log) init_state ;;
  ret tt.

(** [for fn in log_files: process_log_file(fn)] *)
Fixpoint for_files (fs : files) (log_files : list string) : M unit :=
  match log_files with
  | [] => ret tt
  | fn :: rest => process_log_file fs fn ;; for_files fs rest
  end.

Definition usage_1 : string :=
  "Usage: gfanalyse_gfortran_ast.py <ast-file-1> ... <ast-file-N>".
Definition usage_2 : string :=
  "       For generating the abstract syntax tree (ast) run gfortran".
Definition usage_3 : string :=
  "       with " ++ dq ++ "-fdump-fortran-original" ++ dq
    ++ " and redirect output to file.".
Definition usage_4 : string :=
  "       This can be achieved by putting " ++ dq ++ "FC_SAVELOG = TRUE" ++ dq
    ++ " in the cp2k arch-file.".

(** [main], with [sys.argv] and the file system as arguments. *)
Definition main (fs : files) (argv : list string) : M unit :=
  if (length argv <? 2)%nat then
    print usage_1 ;;
    print usage_2 ;;
    print usage_3 ;;
    print usage_4 ;;
    raise (SystemExit 1)
  else
    let log_files := tl argv in
    for_files fs log_files.

(** ** Text used in the statements *)

(** The text of a file from its lines. *)
Definition unlines (ls : list string) : string :=
  String.concat (String newline EmptyString) ls.

(** A file system that holds one file. *)
Definition one_file (name log : string) : files :=
  fun fn => if String.eqb fn name then Some log else None.

(** Two logs: [a.log] ends inside procedure [foo] with symbol [bar]
    known, [b.log] has an attributes line and an [OPEN] line and no
    procedure line. *)
Definition two_logs : files :=
  fun fn =>
    if String.eqb fn "a.log" then
      Some (unlines ["  procedure name = foo";
                     "  symtree: 'bar'        || symbol: 'bar'          ";
                     "  attributes: (VARIABLE IMPLICIT-SAVE)"])
    else if String.eqb fn "b.log" then
      Some (unlines ["  attributes: (VARIABLE IMPLICIT-SAVE)";
                     "  OPEN(unit=10)"])
    else None.

(** A line none of the five patterns matches. *)
Definition plain (line : string) : Prop :=
  re_procedure line = None /\ re_symbol line = None /\ re_attr line = None
  /\ re_open line = None /\ re_close line = None.

(** The diagnostic about a symbol, as one text. *)
Definition symbol_diagnostic (fn sym proc what : string) : string :=
  (fn ++ ": Symbol " ++ dq ++ sym ++ dq ++ " in procedure " ++ dq ++ proc
      ++ dq ++ " is " ++ what)%string.

(** A computation that raises nothing but [TypeError]. *)
Definition only_TypeError {A : Type} (m : M A) : Prop :=
  forall e, result m = inl e -> e = TypeError.

(** A text without newline. *)
Fixpoint one_line (s : string) : bool :=
  match s with
  | EmptyString => true
  | String c s' => is_dot c && one_line s'
  end.

(** The text after its leading white space. *)
Fixpoint skip_space (s : string) : string :=
  match s with
  | String c s' => if is_space c then skip_space s' else s
  | EmptyString => s
  end.

(** The first character after the white space a line starts with; there
    is none when the line does not start with white space or holds nothing
    else. *)
Definition lead (s : string) : option ascii :=
  match s with
  | String c s' =>
      if is_space c then
        match skip_space s' with
        | String d _ => Some d
        | EmptyString => None
        end
      else None
  | EmptyString => None
  end.

(** How many of the five patterns match a line. *)
Definition match_count (line : string) : nat :=
  (if matched (re_procedure line) then 1 else 0)
  + (if matched (re_symbol line) then 1 else 0)
  + (if matched (re_attr line) then 1 else 0)
  + (if matched (re_open line) then 1 else 0)
  + (if matched (re_close line) then 1 else 0).

(** A line the [OPEN] or the [CLOSE] pattern matches. *)
Definition open_or_close (line : string) : bool :=
  matched (re_open line) || matched (re_close line).

(** Group 1 of the last line a pattern matches, [cur] when it matches
    none. *)
Fixpoint last_group (re : string -> option string) (lines : list string)
         (cur : option string) : option string :=
  match lines with
  | [] => cur
  | line :: rest =>
      last_group re rest
        (match re line with
         | Some g => Some g
         | None => cur
         end)
  end.

(** The most a line can print: two messages for an attributes line, one
    for an [OPEN] or [CLOSE] line. *)
Definition max_messages (line : string) : nat :=
  if matched (re_attr line) then 2
  else if open_or_close line then 1
  else 0.

(** An attributes line that names [IMPLICIT-SAVE] or [IMPLICIT-TYPE]. *)
Definition implicit_line (line : string) : bool :=
  matched (re_attr line)
  && (contains "IMPLICIT-SAVE" line || contains "IMPLICIT-TYPE" line).

(** ** The definitions on small inputs *)

Example split_newline_keeps_last_empty :
  split_newline (unlines ["a"; "b"; ""]) = ["a"; "b"; ""]
  /\ split_newline "" = [""].
Proof. split; reflexivity. Qed.

Example base_name_cuts_at_last_dot :
  map base_name ["cp_files.log"; "foo.log"; "machine"; "a.b.c";
                 "logs/cp_files.log"; "logs.d/cp_files"] =
  ["cp_files"; "foo"; "machine"; "a.b"; "logs/cp_files"; "logs"].
Proof. reflexivity. Qed.

Example re_procedure_needs_leading_space :
  re_procedure "  procedure name = foo" = Some "foo"
  /\ re_procedure "procedure name = foo" = None
  /\ re_procedure "  procedure name = " = Some "".
Proof. repeat split; reflexivity. Qed.

Example re_symbol_takes_last_quoted_symbol :
  re_symbol "  symtree: 'bar'        || symbol: 'bar'          " = Some "bar"
  /\ re_symbol "  symtree: 'a' || symbol: 'a' from symbol: 'b'" = Some "b"
  /\ re_symbol "  symtree: 'a' || symbol: ''" = None.
Proof. repeat split; reflexivity. Qed.

Example re_open_close_prefix_only :
  re_open "  OPEN(unit=10)" = Some tt
  /\ re_open "  OPENED" = Some tt
  /\ re_open "OPEN" = None
  /\ re_close "    CLOSE (UNIT=10)" = Some tt
  /\ re_close "  OPEN(unit=10)" = None.
Proof. repeat split; reflexivity. Qed.

Example main_on_two_logs :
  main two_logs ["analyze_gfortran_ast.py"; "a.log"; "b.log"; "c.log"] =
  ([symbol_diagnostic "a.log" "bar" "foo" "IMPLICIT-SAVE"], inl IOError).
Proof. reflexivity. Qed.

(** ** Strings *)

Lemma append_assoc (a b c : string) :
  ((a ++ b) ++ c = a ++ (b ++ c))%string.
Proof.
  induction a as [|x a IH]; simpl; [reflexivity|].
  now rewrite IH.
Qed.

(** ** The monad *)

Lemma bind_ret_l {A B : Type} (a : A) (f : A -> M B) :
  bind (ret a) f = f a.
Proof.
  unfold bind, ret. now destruct (f a).
Qed.

Lemma bind_ret_r {A : Type} (m : M A) : bind m ret = m.
Proof.
  destruct m as [out [e|a]]; unfold bind, ret; simpl; [reflexivity|].
  now rewrite app_nil_r.
Qed.

Lemma bind_assoc {A B C : Type} (m : M A) (f : A -> M B) (g : B -> M C) :
  bind (bind m f) g = bind m (fun a => bind (f a) g).
Proof.
  destruct m as [out [e|a]]; simpl; [reflexivity|].
  destruct (f a) as [out1 [e1|b]]; simpl; [reflexivity|].
  destruct (g b) as [out2 r2]. now rewrite app_assoc.
Qed.



Lemma bind_ext {A B : Type} (m : M A) (f g : A -> M B) :
  (forall a, f a = g a) -> bind m f = bind m g.
Proof.
  intros H. destruct m as [out [e|a]]; simpl; [reflexivity|].
  now rewrite H.
Qed.

Lemma when_false (m : M unit) : when false m = ret tt.
Proof. reflexivity. Qed.

Lemma scan_lines_app (fn : string) (l1 l2 : list string) (st : ScanState) :
  scan_lines fn (l1 ++ l2) st =
  (st' <- scan_lines fn l1 st ;; scan_lines fn l2 st').
Proof.
  revert st. induction l1 as [|l l1 IH]; intros st; cbn [scan_lines app].
  - now rewrite bind_ret_l.
  - rewrite bind_assoc. apply bind_ext. intros a. apply IH.
Qed.

Lemma scan_lines_cons (fn line : string) (rest : list string) (st : ScanState) :
  scan_lines fn (line :: rest) st =
  (st' <- loop_body fn st line ;; scan_lines fn rest st').
Proof. reflexivity. Qed.

Lemma for_files_app (fs : files) (l1 l2 : list string) :
  for_files fs (l1 ++ l2) = (for_files fs l1 ;; for_files fs l2).
Proof.
  induction l1 as [|fn l1 IH]; cbn [for_files app].
  - now rewrite bind_ret_l.
  - rewrite bind_assoc. apply bind_ext. intros _. apply IH.
Qed.

(** ** The patterns: what follows the leading white space *)

Section LeadingSpace.
Context {A : Type}.
Variables (c : ascii) (l : string) (k : @cont A).
Hypothesis c_not_space : is_space c = false.

(** [\s+] followed by a literal that starts with a visible character
    never backtracks: the literal has to follow the whole run. *)
Lemma star_space_lit (s : string) :
  star is_space (lit (String c l) k) s = lit (String c l) k (skip_space s).
Proof.
  induction s as [|a s IH]; [reflexivity|].
  cbn [star skip_space]. destruct (is_space a) eqn:Ea; [|reflexivity].
  rewrite IH. destruct (lit (String c l) k (skip_space s)); [reflexivity|].
  cbn [lit]. destruct (Ascii.eqb_spec c a) as [->|_]; [congruence|reflexivity].
Qed.

Lemma plus_space_lit (s : string) :
  plus is_space (lit (String c l) k) s =
  match s with
  | String a s' =>
      if is_space a then lit (String c l) k (skip_space s') else None
  | EmptyString => None
  end.
Proof.
  destruct s as [|a s]; [reflexivity|].
  cbn [plus]. destruct (is_space a); [apply star_space_lit|reflexivity].
Qed.

Lemma plus_space_lit_lead (s : string) (r : A) :
  plus is_space (lit (String c l) k) s = Some r -> lead s = Some c.
Proof.
  rewrite plus_space_lit. destruct s as [|a s]; [discriminate|].
  cbn [lead]. destruct (is_space a); [|discriminate].
  destruct (skip_space s) as [|d t]; cbn [lit]; [discriminate|].
  destruct (Ascii.eqb_spec c d) as [->|_]; [reflexivity|discriminate].
Qed.
End LeadingSpace.

Lemma re_procedure_lead (line g : string) :
  re_procedure line = Some g -> lead line = Some "p"%char.
Proof. apply plus_space_lit_lead. reflexivity. Qed.

Lemma re_symbol_lead (line g : string) :
  re_symbol line = Some g -> lead line = Some "s"%char.
Proof. apply plus_space_lit_lead. reflexivity. Qed.

Lemma re_attr_lead (line g : string) :
  re_attr line = Some g -> lead line = Some "a"%char.
Proof. apply plus_space_lit_lead. reflexivity. Qed.

Lemma re_open_lead (line : string) (u : unit) :
  re_open line = Some u -> lead line = Some "O"%char.
Proof. apply plus_space_lit_lead. reflexivity. Qed.

Lemma re_close_lead (line : string) (u : unit) :
  re_close line = Some u -> lead line = Some "C"%char.
Proof. apply plus_space_lit_lead. reflexivity. Qed.

(** A pattern does not match a line whose first visible character is not
    the one its literal starts with. *)
Ltac other_lead H :=
  match goal with
  | |- ?f ?line = None =>
      let E := fresh "E" in
      destruct (f line) eqn:E; [|reflexivity];
      first [ apply re_procedure_lead in E | apply re_symbol_lead in E
            | apply re_attr_lead in E | apply re_open_lead in E
            | apply re_close_lead in E ];
      rewrite H in E; discriminate E
  end.

Lemma lead_a_only_attr (line : string) :
  lead line = Some "a"%char ->
  re_procedure line = None /\ re_symbol line = None
  /\ re_open line = None /\ re_close line = None.
Proof. intros H. repeat split; other_lead H. Qed.

Lemma lead_O_only_open (line : string) :
  lead line = Some "O"%char ->
  re_procedure line = None /\ re_symbol line = None
  /\ re_attr line = None /\ re_close line = None.
Proof. intros H. repeat split; other_lead H. Qed.

Lemma lead_C_only_close (line : string) :
  lead line = Some "C"%char ->
  re_procedure line = None /\ re_symbol line = None
  /\ re_attr line = None /\ re_open line = None.
Proof. intros H. repeat split; other_lead H. Qed.

Lemma lead_s_not_procedure (line : string) :
  lead line = Some "s"%char -> re_procedure line = None.
Proof. intros H. other_lead H. Qed.

(** ** One iteration of the loop *)

Lemma bind_ret_tt (m : M unit) : (m ;; ret tt) = m.
Proof.
  destruct m as [out [e|[]]]; simpl; [reflexivity|].
  unfold ret. now rewrite app_nil_r.
Qed.

Lemma In_list_In (x : string) (xs : list string) :
  In_list x xs = true <-> In x xs.
Proof.
  unfold In_list. rewrite existsb_exists. split.
  - intros [y [Hy E]]. apply String.eqb_eq in E. now subst.
  - intros H. exists x. split; [assumption|apply String.eqb_refl].
Qed.

Lemma In_list_not_In (x : string) (xs : list string) :
  In_list x xs = false <-> ~ In x xs.
Proof.
  rewrite <- In_list_In. destruct (In_list x xs); split; congruence.
Qed.

Lemma loop_body_procedure (fn : string) (st : ScanState) (line g : string) :
  re_procedure line = Some g ->
  loop_body fn st line = ret (mkScanState (Some g) (curr_symbol st)).
Proof. intros H. unfold loop_body. now rewrite H. Qed.

Lemma loop_body_symbol (fn : string) (st : ScanState) (line g : string) :
  re_procedure line = None -> re_symbol line = Some g ->
  loop_body fn st line = ret (mkScanState (curr_procedure st) (Some g)).
Proof. intros H1 H2. unfold loop_body. now rewrite H1, H2. Qed.

Lemma loop_body_checks (fn : string) (st : ScanState) (line : string) :
  re_procedure line = None -> re_symbol line = None ->
  loop_body fn st line = (checks fn st line ;; ret st).
Proof. intros H1 H2. unfold loop_body. now rewrite H1, H2. Qed.

Lemma checks_not_truthy (fn : string) (st : ScanState) (line : string) :
  truthy (curr_procedure st) = false -> checks fn st line = ret tt.
Proof.
  intros H. unfold checks. rewrite H.
  rewrite !andb_false_r. cbn [andb]. now rewrite !when_false, !bind_ret_l.
Qed.

Lemma checks_attr (fn : string) (st : ScanState) (line : string) :
  truthy (curr_procedure st) = true ->
  re_attr line <> None -> re_open line = None -> re_close line = None ->
  checks fn st line =
  (when (contains "IMPLICIT-SAVE" line && negb (contains "PARAMETER" line))
     (print_symbol_msg fn st "IMPLICIT-SAVE") ;;
   when (contains "IMPLICIT-TYPE" line)
     (print_symbol_msg fn st "IMPLICIT-TYPE")).
Proof.
  intros Ht Ha Ho Hc. unfold checks. rewrite Ht, Ho, Hc.
  destruct (re_attr line); [|congruence].
  cbn [matched andb]. rewrite !when_false, !bind_ret_l.
  now rewrite bind_ret_tt.
Qed.

Lemma checks_open (fn : string) (st : ScanState) (line : string) :
  truthy (curr_procedure st) = true ->
  re_attr line = None -> re_open line <> None -> re_close line = None ->
  checks fn st line =
  when (negb (In_list (base_name fn) open_close_exceptions))
    (print_call_msg fn st "OPEN").
Proof.
  intros Ht Ha Ho Hc. unfold checks. rewrite Ht, Ha, Hc.
  destruct (re_open line); [|congruence].
  cbn [matched andb]. rewrite !when_false, !bind_ret_l.
  now rewrite bind_ret_tt.
Qed.

Lemma checks_close (fn : string) (st : ScanState) (line : string) :
  truthy (curr_procedure st) = true ->
  re_attr line = None -> re_open line = None -> re_close line <> None ->
  checks fn st line =
  when (negb (In_list (base_name fn) open_close_exceptions))
    (print_call_msg fn st "CLOSE").
Proof.
  intros Ht Ha Ho Hc. unfold checks. rewrite Ht, Ha, Ho.
  destruct (re_close line); [|congruence].
  cbn [matched andb]. now rewrite !when_false, !bind_ret_l.
Qed.

Lemma checks_plain (fn : string) (st : ScanState) (line : string) :
  re_attr line = None -> re_open line = None -> re_close line = None ->
  checks fn st line = ret tt.
Proof.
  intros Ha Ho Hc. unfold checks. rewrite Ha, Ho, Hc.
  cbn [matched andb]. now rewrite !when_false, !bind_ret_l.
Qed.

Lemma print_symbol_msg_some (fn : string) (st : ScanState) (what s p : string) :
  curr_symbol st = Some s -> curr_procedure st = Some p ->
  print_symbol_msg fn st what =
  print (fn ++ ": Symbol " ++ dq ++ s ++ dq ++ " in procedure " ++ dq ++ p
            ++ dq ++ " is " ++ what)%string.
Proof.
  intros Hs Hp. unfold print_symbol_msg, str_add. rewrite Hs, Hp.
  rewrite !bind_ret_l. f_equal. now rewrite !append_assoc.
Qed.

Lemma print_symbol_msg_none (fn : string) (st : ScanState) (what : string) :
  curr_symbol st = None -> print_symbol_msg fn st what = raise TypeError.
Proof.
  intros Hs. unfold print_symbol_msg, str_add. now rewrite Hs.
Qed.

Lemma print_call_msg_some (fn : string) (st : ScanState) (what p : string) :
  curr_procedure st = Some p ->
  print_call_msg fn st what =
  print (fn ++ ": direct call to " ++ what ++ " in procedure " ++ dq ++ p
            ++ "'")%string.
Proof.
  intros Hp. unfold print_call_msg, str_add. rewrite Hp.
  rewrite !bind_ret_l. f_equal. now rewrite !append_assoc.
Qed.

(** What an [OPEN] line prints, whatever the procedure variable holds. *)
Lemma loop_body_open (fn : string) (st : ScanState) (line : string) :
  re_open line <> None ->
  loop_body fn st line =
  (when (truthy (curr_procedure st)
         && negb (In_list (base_name fn) open_close_exceptions))
     (print_call_msg fn st "OPEN") ;; ret st).
Proof.
  intros Ho.
  assert (Hl : lead line = Some "O"%char).
  { destruct (re_open line) as [u|] eqn:E; [|congruence].
    now apply re_open_lead in E. }
  destruct (lead_O_only_open line Hl) as (Hp & Hs & Ha & Hc).
  rewrite loop_body_checks by assumption.
  destruct (truthy (curr_procedure st)) eqn:Ht.
  - now rewrite checks_open.
  - now rewrite checks_not_truthy.
Qed.

Lemma loop_body_close (fn : string) (st : ScanState) (line : string) :
  re_close line <> None ->
  loop_body fn st line =
  (when (truthy (curr_procedure st)
         && negb (In_list (base_name fn) open_close_exceptions))
     (print_call_msg fn st "CLOSE") ;; ret st).
Proof.
  intros Ho.
  assert (Hl : lead line = Some "C"%char).
  { destruct (re_close line) as [u|] eqn:E; [|congruence].
    now apply re_close_lead in E. }
  destruct (lead_C_only_close line Hl) as (Hp & Hs & Ha & Hc).
  rewrite loop_body_checks by assumption.
  destruct (truthy (curr_procedure st)) eqn:Ht.
  - now rewrite checks_close.
  - now rewrite checks_not_truthy.
Qed.

Lemma loop_body_attr (fn : string) (st : ScanState) (line : string) :
  re_attr line <> None ->
  loop_body fn st line =
  (when (truthy (curr_procedure st) && contains "IMPLICIT-SAVE" line
         && negb (contains "PARAMETER" line))
     (print_symbol_msg fn st "IMPLICIT-SAVE") ;;
   when (truthy (curr_procedure st) && contains "IMPLICIT-TYPE" line)
     (print_symbol_msg fn st "IMPLICIT-TYPE") ;;
   ret st).
Proof.
  intros Ha.
  assert (Hl : lead line = Some "a"%char).
  { destruct (re_attr line) as [g|] eqn:E; [|congruence].
    now apply re_attr_lead in E. }
  destruct (lead_a_only_attr line Hl) as (Hp & Hs & Ho & Hc).
  rewrite loop_body_checks by assumption.
  destruct (truthy (curr_procedure st)) eqn:Ht.
  - rewrite checks_attr by assumption. cbn [andb]. now rewrite bind_assoc.
  - rewrite checks_not_truthy by assumption. cbn [andb].
    now rewrite !when_false, !bind_ret_l.
Qed.

Lemma when_print_ret {A : Type} (b : bool) (msg : string) (a : A) :
  (when b (print msg) ;; ret a) = (if b then [msg] else [], inr a).
Proof. now destruct b. Qed.

Lemma result_bind_ret {A B : Type} (m : M A) (b b' : B) :
  result (m ;; ret b) = inr b' -> b' = b.
Proof.
  destruct m as [out [e|a]]; cbn; intros H; [discriminate|].
  now injection H.
Qed.

Lemma loop_body_keeps_symbol (fn : string) (st st1 : ScanState) (line : string) :
  re_symbol line = None ->
  result (loop_body fn st line) = inr st1 ->
  curr_symbol st1 = curr_symbol st.
Proof.
  intros Hs. unfold loop_body. destruct (re_procedure line) as [g|].
  - cbn. intros H. injection H as <-. reflexivity.
  - rewrite Hs. intros H. apply result_bind_ret in H. now subst.
Qed.

Lemma scan_lines_keeps_symbol (fn : string) (lines : list string) :
  Forall (fun l => re_symbol l = None) lines ->
  forall st out st',
    scan_lines fn lines st = (out, inr st') ->
    curr_symbol st' = curr_symbol st.
Proof.
  induction 1 as [|l lines Hl _ IH]; intros st out st' H.
  - cbn in H. injection H as _ <-. reflexivity.
  - rewrite scan_lines_cons in H.
    destruct (loop_body fn st l) as [o1 [e|st1]] eqn:E; [discriminate H|].
    cbn [bind] in H.
    destruct (scan_lines fn lines st1) as [o2 r2] eqn:E2.
    injection H as _ ->.
    rewrite (IH _ _ _ E2).
    apply (loop_body_keeps_symbol fn st st1 l Hl). now rewrite E.
Qed.

Lemma loop_body_before_procedure (fn : string) (sym : option string)
      (line : string) :
  re_procedure line = None ->
  exists sym',
    loop_body fn (mkScanState None sym) line = ([], inr (mkScanState None sym')).
Proof.
  intros Hp. destruct (re_symbol line) as [g|] eqn:Hs.
  - exists (Some g). now rewrite (loop_body_symbol _ _ _ g).
  - exists sym. rewrite loop_body_checks by assumption.
    now rewrite checks_not_truthy, bind_ret_l.
Qed.

Lemma scan_lines_before_procedure (fn : string) (lines : list string) :
  Forall (fun l => re_procedure l = None) lines ->
  forall sym, exists sym',
    scan_lines fn lines (mkScanState None sym) =
    ret (mkScanState None sym').
Proof.
  induction 1 as [|l lines Hl _ IH]; intros sym.
  - now exists sym.
  - destruct (loop_body_before_procedure fn sym l Hl) as [sym1 E1].
    destruct (IH sym1) as [sym2 E2].
    exists sym2. rewrite scan_lines_cons, E1. cbn [bind]. now rewrite E2.
Qed.

Lemma loop_body_plain (fn : string) (st : ScanState) (line : string) :
  plain line -> loop_body fn st line = ret st.
Proof.
  intros (Hp & Hs & Ha & Ho & Hc).
  rewrite loop_body_checks by assumption.
  now rewrite checks_plain, bind_ret_l.
Qed.

Lemma scan_lines_plain (fn : string) (lines : list string) (st : ScanState) :
  Forall plain lines -> scan_lines fn lines st = ret st.
Proof.
  induction 1 as [|l lines Hl _ IH]; [reflexivity|].
  now rewrite scan_lines_cons, loop_body_plain, bind_ret_l.
Qed.

(** ** Attribute lines *)

Lemma append_inv_head (a x y : string) :
  (a ++ x = a ++ y)%string -> x = y.
Proof.
  induction a as [|c a IH]; cbn; intros H; [assumption|].
  injection H as H. now apply IH.
Qed.

Lemma symbol_diagnostic_save_type (fn sym proc : string) :
  symbol_diagnostic fn sym proc "IMPLICIT-TYPE"
  <> symbol_diagnostic fn sym proc "IMPLICIT-SAVE".
Proof.
  unfold symbol_diagnostic. intros H.
  apply append_inv_head in H. cbn in H. injection H as H.
  apply append_inv_head in H. cbn in H. injection H as H.
  apply append_inv_head in H. discriminate H.
Qed.

(** An attributes line inside a procedure whose symbol is known. *)
Lemma loop_body_attr_known (fn : string) (st : ScanState) (line : string)
      (c : ascii) (p s : string) :
  re_attr line <> None ->
  curr_procedure st = Some (String c p) ->
  curr_symbol st = Some s ->
  loop_body fn st line =
  ((if contains "IMPLICIT-SAVE" line && negb (contains "PARAMETER" line)
    then [symbol_diagnostic fn s (String c p) "IMPLICIT-SAVE"] else [])
   ++ (if contains "IMPLICIT-TYPE" line
       then [symbol_diagnostic fn s (String c p) "IMPLICIT-TYPE"] else []),
   inr st).
Proof.
  intros Ha Hp Hs. rewrite loop_body_attr by assumption.
  rewrite !(print_symbol_msg_some fn st _ s (String c p) Hs Hp), Hp.
  cbn [truthy andb]. fold (symbol_diagnostic fn s (String c p) "IMPLICIT-SAVE").
  fold (symbol_diagnostic fn s (String c p) "IMPLICIT-TYPE").
  destruct (contains "IMPLICIT-SAVE" line && negb (contains "PARAMETER" line));
    destruct (contains "IMPLICIT-TYPE" line); reflexivity.
Qed.

(** An attributes line that owes a diagnostic, inside a procedure, before
    any symbol line. *)
Lemma loop_body_attr_unset_symbol (fn : string) (st : ScanState) (line : string) :
  re_attr line <> None ->
  truthy (curr_procedure st) = true ->
  curr_symbol st = None ->
  contains "IMPLICIT-SAVE" line && negb (contains "PARAMETER" line)
  || contains "IMPLICIT-TYPE" line = true ->
  loop_body fn st line = ([], inl TypeError).
Proof.
  intros Ha Ht Hs Hd. rewrite loop_body_attr by assumption.
  rewrite !(print_symbol_msg_none fn st _ Hs), Ht. cbn [andb].
  destruct (contains "IMPLICIT-SAVE" line && negb (contains "PARAMETER" line));
    [reflexivity|].
  cbn [orb] in Hd. rewrite Hd. reflexivity.
Qed.

(** ** [OPEN] and [CLOSE] lines *)

Lemma stdout_when_call (fn : string) (st : ScanState) (what m : string) (b : bool) :
  In m (stdout (when (truthy (curr_procedure st) && b)
                  (print_call_msg fn st what) ;; ret st)) ->
  exists p,
    curr_procedure st = Some p
    /\ m = (fn ++ ": direct call to " ++ what ++ " in procedure " ++ dq ++ p
               ++ "'")%string.
Proof.
  destruct (curr_procedure st) as [p|] eqn:Hp.
  - rewrite (print_call_msg_some fn st what p Hp), when_print_ret.
    cbn [stdout fst].
    destruct (truthy (Some p) && b); cbn [In]; [|tauto].
    intros [<-|[]]. now exists p.
  - cbn [truthy andb]. rewrite when_false, bind_ret_l.
    cbn. tauto.
Qed.

(** ** Whole files and the command line *)

Lemma only_TypeError_ret {A : Type} (a : A) : only_TypeError (ret a).
Proof. intros e H. discriminate H. Qed.

Lemma only_TypeError_print (msg : string) : only_TypeError (print msg).
Proof. intros e H. discriminate H. Qed.

Lemma only_TypeError_bind {A B : Type} (m : M A) (f : A -> M B) :
  only_TypeError m -> (forall a, only_TypeError (f a)) ->
  only_TypeError (bind m f).
Proof.
  intros Hm Hf e. destruct m as [out [e'|a]]; cbn.
  - intros H. injection H as <-. apply Hm. reflexivity.
  - specialize (Hf a e). destruct (f a) as [out' r]. exact Hf.
Qed.

Lemma only_TypeError_when (b : bool) (m : M unit) :
  only_TypeError m -> only_TypeError (when b m).
Proof. destruct b; [trivial|intros _; apply only_TypeError_ret]. Qed.

Lemma only_TypeError_str_add (a : string) (b : option string) :
  only_TypeError (str_add a b).
Proof.
  destruct b; [apply only_TypeError_ret|].
  intros e H. now injection H.
Qed.

Ltac only_TypeError_step :=
  first [ apply only_TypeError_ret | apply only_TypeError_print
        | apply only_TypeError_str_add
        | apply only_TypeError_when
        | apply only_TypeError_bind; [|intro] ].

Lemma only_TypeError_loop_body (fn : string) (st : ScanState) (line : string) :
  only_TypeError (loop_body fn st line).
Proof.
  unfold loop_body, checks, print_symbol_msg, print_call_msg.
  destruct (re_procedure line); [apply only_TypeError_ret|].
  destruct (re_symbol line); [apply only_TypeError_ret|].
  repeat only_TypeError_step.
Qed.

Lemma only_TypeError_scan_lines (fn : string) (lines : list string) :
  forall st, only_TypeError (scan_lines fn lines st).
Proof.
  induction lines as [|l lines IH]; intros st; cbn [scan_lines].
  - apply only_TypeError_ret.
  - apply only_TypeError_bind; [apply only_TypeError_loop_body|exact IH].
Qed.

(** A readable file is processed to the end unless the scan raises
    [TypeError]. *)
Lemma process_log_file_completes (fs : files) (fn : string) :
  fs fn <> None ->
  result (process_log_file fs fn) <> inl TypeError ->
  result (process_log_file fs fn) = inr tt.
Proof.
  intros Hr Hn. destruct (result (process_log_file fs fn)) as [e|[]] eqn:E;
    [|reflexivity].
  exfalso. apply Hn. f_equal.
  revert E. unfold process_log_file, read_file.
  destruct (fs fn) as [log|]; [|congruence].
  rewrite bind_ret_l. apply only_TypeError_bind.
  - apply only_TypeError_scan_lines.
  - intros a. apply only_TypeError_ret.
Qed.

Lemma for_files_completes (fs : files) (log_files : list string) :
  Forall (fun fn => result (process_log_file fs fn) = inr tt) log_files ->
  for_files fs log_files =
  (concat (map (fun fn => stdout (process_log_file fs fn)) log_files), inr tt).
Proof.
  induction 1 as [|fn rest Hfn _ IH]; [reflexivity|].
  cbn [for_files map concat]. rewrite IH.
  destruct (process_log_file fs fn) as [out r]. cbn in Hfn. subst r.
  reflexivity.
Qed.

Lemma main_with_files (fs : files) (prog fn : string) (rest : list string) :
  main fs (prog :: fn :: rest) = for_files fs (fn :: rest).
Proof. reflexivity. Qed.

Lemma main_without_files (fs : files) (argv : list string) :
  length argv < 2 ->
  main fs argv = ([usage_1; usage_2; usage_3; usage_4], inl (SystemExit 1)).
Proof.
  intros H. unfold main. apply Nat.ltb_lt in H. rewrite H. reflexivity.
Qed.

(** ** The symbol pattern on a line of the dump *)

Lemma split_newline_one_line (s : string) :
  Forall (fun l => one_line l = true) (split_newline s).
Proof.
  induction s as [|c s IH]; cbn [split_newline].
  - repeat constructor.
  - destruct (Ascii.eqb c newline) eqn:E.
    + constructor; [reflexivity|exact IH].
    + destruct (split_newline s) as [|l ls].
      * repeat constructor. cbn. unfold is_dot. now rewrite E.
      * inversion IH as [|? ? Hl Hls]; subst. constructor; [|exact Hls].
        cbn. unfold is_dot. now rewrite E, Hl.
Qed.

Section Star.
Context {A : Type}.

Lemma lit_prefix (l : string) (k : @cont A) (s : string) (r : A) :
  lit l k s = Some r -> String.prefix l s = true.
Proof.
  revert s. induction l as [|c l IH]; intros s; cbn [lit].
  - now destruct s.
  - destruct s as [|d s]; [discriminate|].
    destruct (Ascii.eqb_spec c d) as [->|_]; [|discriminate].
    intros H. cbn [String.prefix].
    destruct (ascii_dec d d); [eauto|congruence].
Qed.

(** [.*] before a literal that occurs nowhere in the text. *)
Lemma star_lit_absent (l : string) (k : @cont A) (s : string) :
  contains l s = false -> star is_dot (lit l k) s = None.
Proof.
  assert (Hk : forall t, String.prefix l t = false -> lit l k t = None).
  { intros t Ht. destruct (lit l k t) eqn:E; [|reflexivity].
    apply lit_prefix in E. congruence. }
  induction s as [|c s IH]; cbn [contains star]; intros H;
    apply orb_false_iff in H; destruct H as [H1 H2].
  - now apply Hk.
  - rewrite (IH H2), (Hk _ H1). now destruct (is_dot c).
Qed.

(** [.*] runs over a text without newline when a match lies behind it. *)
Lemma star_over_line (k : @cont A) (x t : string) (r : A) :
  one_line x = true ->
  star is_dot k t = Some r ->
  star is_dot k (x ++ t) = Some r.
Proof.
  intros Hx Ht. induction x as [|c x IH]; [exact Ht|].
  cbn [one_line] in Hx. apply andb_true_iff in Hx. destruct Hx as [Hc Hx].
  cbn [append star]. now rewrite Hc, (IH Hx).
Qed.

(** [.*$] at the end of a line. *)
Lemma star_dollar_line (r : A) (y : string) :
  one_line y = true -> star is_dot (dollar r) y = Some r.
Proof.
  induction y as [|c y IH]; [reflexivity|].
  cbn [one_line]. intros H. apply andb_true_iff in H. destruct H as [Hc Hy].
  cbn [star]. now rewrite Hc, (IH Hy).
Qed.
End Star.

(** A symbol line of the dump: [  symtree:], any text, [ symbol: 'bar'],
    and a rest that does not open another quoted symbol. *)
Lemma re_symbol_bar (x y : string) :
  one_line x = true -> one_line y = true ->
  contains " symbol: '" y = false ->
  re_symbol ("  symtree:" ++ x ++ " symbol: 'bar'" ++ y) = Some "bar".
Proof.
  intros Hx Hy Hc. unfold re_symbol.
  rewrite plus_space_lit by reflexivity.
  change ("  symtree:" ++ x ++ " symbol: 'bar'" ++ y)%string
    with (String " " (String " " ("symtree" ++ String ":" x ++ " symbol: 'bar'" ++ y)))%string.
  cbv beta iota. change (is_space " ") with true. cbv iota.
  change (skip_space (String " " ("symtree" ++ String ":" x ++ " symbol: 'bar'" ++ y)))
    with ("symtree" ++ String ":" x ++ " symbol: 'bar'" ++ y)%string.
  change (lit "symtree" ?k ("symtree" ++ ?t)) with (k t).
  apply star_over_line; [cbn [one_line]; now rewrite Hx|].
  assert (Habsent : contains " symbol: '" ("symbol: 'bar'" ++ y) = false).
  { exact Hc. }
  change (" symbol: 'bar'" ++ y)%string
    with (String " " ("symbol: 'bar'" ++ y)).
  cbn [star]. change (is_dot " ") with true. cbv iota.
  rewrite (star_lit_absent _ _ _ Habsent).
  change (lit " symbol: '" ?k (String " " ("symbol: 'bar'" ++ ?t)))
    with (k ("bar'" ++ t)%string).
  change (plus_group not_squote ?k ("bar'" ++ y))
    with (match
             match k "bar" (String squote y) with
             | Some r => Some r
             | None => k "ba" (String "r" (String squote y))
             end
           with
           | Some r => Some r
           | None => k "b" (String "a" (String "r" (String squote y)))
           end).
  cbv beta.
  change (lit "'" ?k (String squote y)) with (k y).
  now rewrite (star_dollar_line "bar" y Hy).
Qed.

(** ** The claims *)

(** C1 (as amended): for a line the [OPEN] pattern matches, while
    [curr_procedure] holds a name that is not empty, the iteration prints
    the [OPEN] diagnostic exactly when the base name of the file is not in
    the exception list, prints nothing when it is, and leaves the state as
    it was. *)
Theorem open_line_diagnostic_iff_not_exception
        (fn : string) (st : ScanState) (line : string) (c : ascii) (p : string) :
  re_open line = Some tt ->
  curr_procedure st = Some (String c p) ->
  result (loop_body fn st line) = inr st
  /\ (In (base_name fn) open_close_exceptions ->
      stdout (loop_body fn st line) = [])
  /\ (~ In (base_name fn) open_close_exceptions ->
      stdout (loop_body fn st line) =
      [(fn ++ ": direct call to OPEN in procedure " ++ dq ++ String c p ++ "'")%string]).
Proof.
  intros Ho Hp.
  rewrite loop_body_open by congruence.
  rewrite (print_call_msg_some fn st "OPEN" (String c p) Hp), Hp.
  cbn [truthy andb]. rewrite when_print_ret.
  split; [reflexivity|]. split.
  - intros Hin. apply In_list_In in Hin. now rewrite Hin.
  - intros Hin. apply In_list_not_In in Hin. now rewrite Hin.
Qed.

(** C1, at the two files of the example: [cp_files.log] is silent,
    [foo.log] is reported. *)
Lemma open_line_diagnostic_witness :
  re_open "  OPEN(unit=10, ...)" = Some tt
  /\ stdout (loop_body "cp_files.log" (mkScanState (Some "foo") None)
               "  OPEN(unit=10, ...)") = []
  /\ stdout (loop_body "foo.log" (mkScanState (Some "foo") None)
               "  OPEN(unit=10, ...)") =
     [("foo.log: direct call to OPEN in procedure " ++ dq ++ "foo'")%string].
Proof.
  split; [reflexivity|]. split.
  - apply (open_line_diagnostic_iff_not_exception "cp_files.log"
             (mkScanState (Some "foo") None) "  OPEN(unit=10, ...)" "f" "oo");
      [reflexivity|reflexivity|].
    apply In_list_In. reflexivity.
  - apply (open_line_diagnostic_iff_not_exception "foo.log"
             (mkScanState (Some "foo") None) "  OPEN(unit=10, ...)" "f" "oo");
      [reflexivity|reflexivity|].
    apply In_list_not_In. reflexivity.
Defined.

(** C1 as stated fails when [curr_procedure] is set to the empty name:
    after the line [  procedure name = ] the variable holds the empty
    string, the [OPEN] pattern matches the next line, [foo] is not in the
    exception list, and nothing is printed. *)
Lemma open_line_silent_after_empty_procedure_name :
  scan_lines "foo.log" ["  procedure name = "] init_state =
    ([], inr (mkScanState (Some "") None))
  /\ re_open "  OPEN(unit=10)" = Some tt
  /\ base_name "foo.log" = "foo"
  /\ ~ In (base_name "foo.log") open_close_exceptions
  /\ loop_body "foo.log" (mkScanState (Some "") None) "  OPEN(unit=10)" =
     ([], inr (mkScanState (Some "") None))
  /\ process_log_file
       (one_file "foo.log" (unlines ["  procedure name = "; "  OPEN(unit=10)"]))
       "foo.log" = ([], inr tt).
Proof.
  split; [reflexivity|]. split; [reflexivity|]. split; [reflexivity|].
  split; [|split; reflexivity].
  apply In_list_not_In. reflexivity.
Qed.

(** C2 (as amended): building the symbol message is not total.  With
    [curr_symbol] still [None] the sum raises [TypeError] before anything
    is printed; an attributes line that owes a diagnostic while
    [curr_procedure] holds a name that is not empty reaches that sum and
    the iteration ends in [TypeError] with nothing printed; and a file
    exists whose scan ends that way: a procedure line followed by an
    [IMPLICIT-SAVE] attributes line, with no symbol line before it. *)
Theorem unset_symbol_message_raises :
  (forall (fn : string) (proc : option string) (what : string),
      print_symbol_msg fn (mkScanState proc None) what = ([], inl TypeError))
  /\ (forall (fn : string) (c : ascii) (p line : string),
         re_attr line <> None ->
         contains "IMPLICIT-SAVE" line && negb (contains "PARAMETER" line)
         || contains "IMPLICIT-TYPE" line = true ->
         loop_body fn (mkScanState (Some (String c p)) None) line =
         ([], inl TypeError))
  /\ process_log_file
       (one_file "foo.log"
          (unlines ["  procedure name = foo"; "  attributes: IMPLICIT-SAVE"]))
       "foo.log" = ([], inl TypeError).
Proof.
  split; [|split].
  - intros fn proc what. now apply print_symbol_msg_none.
  - intros fn c p line Ha Hd. now apply loop_body_attr_unset_symbol.
  - reflexivity.
Qed.

(** C2, at an [IMPLICIT-TYPE] line in procedure [foo]. *)
Lemma unset_symbol_message_raises_witness :
  re_attr "  attributes: IMPLICIT-TYPE" <> None
  /\ loop_body "foo.log" (mkScanState (Some "foo") None)
       "  attributes: IMPLICIT-TYPE" = ([], inl TypeError).
Proof.
  split; [discriminate|].
  apply (proj1 (proj2 unset_symbol_message_raises) "foo.log" "f"%char "oo");
    [discriminate|reflexivity].
Defined.

(** C2 as stated fails when [curr_procedure] is set to the empty name:
    after the line [  procedure name = ] the variable holds the empty
    string, no symbol line has been seen, the attributes line names
    [IMPLICIT-SAVE] without [PARAMETER], and yet the guard is false, the
    message is never built and the scan goes on to the end. *)
Lemma attr_line_unset_symbol_empty_procedure_name_completes :
  scan_lines "foo.log" ["  procedure name = "] init_state =
    ([], inr (mkScanState (Some "") None))
  /\ re_attr "  attributes: IMPLICIT-SAVE" <> None
  /\ contains "IMPLICIT-SAVE" "  attributes: IMPLICIT-SAVE" = true
  /\ contains "PARAMETER" "  attributes: IMPLICIT-SAVE" = false
  /\ loop_body "foo.log" (mkScanState (Some "") None)
       "  attributes: IMPLICIT-SAVE" =
     ([], inr (mkScanState (Some "") None))
  /\ process_log_file
       (one_file "foo.log"
          (unlines ["  procedure name = "; "  attributes: IMPLICIT-SAVE"]))
       "foo.log" = ([], inr tt).
Proof.
  split; [reflexivity|]. split; [discriminate|]. repeat split; reflexivity.
Qed.

(** C3 (as amended): for an attributes line seen while [curr_procedure]
    holds a name that is not empty and [curr_symbol] holds a symbol, the
    iteration prints the [IMPLICIT-SAVE] diagnostic when the line contains
    [IMPLICIT-SAVE] and not [PARAMETER], then the [IMPLICIT-TYPE] diagnostic
    when the line contains [IMPLICIT-TYPE], and nothing else.  So
    [PARAMETER] suppresses the first, has no bearing on the second, and a
    line with both attributes and no [PARAMETER] prints the two, in that
    order. *)
Theorem attr_line_diagnostics
        (fn : string) (st : ScanState) (line : string)
        (c : ascii) (p s : string) :
  re_attr line <> None ->
  curr_procedure st = Some (String c p) ->
  curr_symbol st = Some s ->
  result (loop_body fn st line) = inr st
  /\ stdout (loop_body fn st line) =
     (if contains "IMPLICIT-SAVE" line && negb (contains "PARAMETER" line)
      then [symbol_diagnostic fn s (String c p) "IMPLICIT-SAVE"] else [])
     ++ (if contains "IMPLICIT-TYPE" line
         then [symbol_diagnostic fn s (String c p) "IMPLICIT-TYPE"] else [])
  /\ (contains "PARAMETER" line = true ->
      ~ In (symbol_diagnostic fn s (String c p) "IMPLICIT-SAVE")
           (stdout (loop_body fn st line)))
  /\ (In (symbol_diagnostic fn s (String c p) "IMPLICIT-TYPE")
         (stdout (loop_body fn st line))
      <-> contains "IMPLICIT-TYPE" line = true)
  /\ (contains "IMPLICIT-SAVE" line = true ->
      contains "IMPLICIT-TYPE" line = true ->
      contains "PARAMETER" line = false ->
      stdout (loop_body fn st line) =
      [symbol_diagnostic fn s (String c p) "IMPLICIT-SAVE";
       symbol_diagnostic fn s (String c p) "IMPLICIT-TYPE"]).
Proof.
  intros Ha Hp Hs.
  rewrite (loop_body_attr_known fn st line c p s Ha Hp Hs).
  cbn [result stdout fst snd].
  pose proof (symbol_diagnostic_save_type fn s (String c p)) as Hne.
  split; [reflexivity|]. split; [reflexivity|]. split; [|split].
  - intros Hpar. rewrite Hpar, andb_false_r. cbn [app].
    destruct (contains "IMPLICIT-TYPE" line); cbn [In]; intuition congruence.
  - destruct (contains "IMPLICIT-SAVE" line && negb (contains "PARAMETER" line));
      destruct (contains "IMPLICIT-TYPE" line); cbn [app In];
      intuition congruence.
  - intros H1 H2 H3. now rewrite H1, H2, H3.
Qed.

(** C3, at a line with both attributes. *)
Lemma attr_line_diagnostics_witness :
  re_attr "  attributes: (VARIABLE IMPLICIT-SAVE IMPLICIT-TYPE)" <> None
  /\ stdout (loop_body "foo.log" (mkScanState (Some "foo") (Some "bar"))
               "  attributes: (VARIABLE IMPLICIT-SAVE IMPLICIT-TYPE)") =
     [symbol_diagnostic "foo.log" "bar" "foo" "IMPLICIT-SAVE";
      symbol_diagnostic "foo.log" "bar" "foo" "IMPLICIT-TYPE"].
Proof.
  split; [discriminate|].
  apply (attr_line_diagnostics "foo.log"
           (mkScanState (Some "foo") (Some "bar"))
           "  attributes: (VARIABLE IMPLICIT-SAVE IMPLICIT-TYPE)" "f" "oo" "bar");
    try reflexivity; discriminate.
Defined.

(** C3 as stated fails in two ways.  With [curr_procedure] set and
    [curr_symbol] still [None], a line with both attributes prints nothing
    and the scan ends in [TypeError]; with [curr_procedure] set to the
    empty name it prints nothing at all. *)
Lemma attr_line_two_diagnostics_fails :
  re_attr "  attributes: IMPLICIT-SAVE IMPLICIT-TYPE" <> None
  /\ contains "IMPLICIT-SAVE" "  attributes: IMPLICIT-SAVE IMPLICIT-TYPE" = true
  /\ contains "IMPLICIT-TYPE" "  attributes: IMPLICIT-SAVE IMPLICIT-TYPE" = true
  /\ contains "PARAMETER" "  attributes: IMPLICIT-SAVE IMPLICIT-TYPE" = false
  /\ loop_body "foo.log" (mkScanState (Some "foo") None)
       "  attributes: IMPLICIT-SAVE IMPLICIT-TYPE" = ([], inl TypeError)
  /\ process_log_file
       (one_file "foo.log"
          (unlines ["  procedure name = foo";
                    "  attributes: IMPLICIT-SAVE IMPLICIT-TYPE"]))
       "foo.log" = ([], inl TypeError)
  /\ loop_body "foo.log" (mkScanState (Some "") (Some "bar"))
       "  attributes: IMPLICIT-SAVE IMPLICIT-TYPE" =
     ([], inr (mkScanState (Some "") (Some "bar")))
  /\ process_log_file
       (one_file "foo.log"
          (unlines ["  procedure name = ";
                    "  symtree: 'bar'        || symbol: 'bar'          ";
                    "  attributes: IMPLICIT-SAVE IMPLICIT-TYPE"]))
       "foo.log" = ([], inr tt).
Proof.
  split; [discriminate|]. repeat split; reflexivity.
Qed.

(** C4: whatever an [OPEN] line prints is the text made of the file
    name, [: direct call to OPEN in procedure ], a double quote, the
    current procedure name and one apostrophe, with no closing double
    quote; the same holds for a [CLOSE] line with [CLOSE] in the text. *)
Theorem call_diagnostic_text
        (fn : string) (st : ScanState) (line m : string) :
  In m (stdout (loop_body fn st line)) ->
  (re_open line = Some tt ->
   exists p,
     curr_procedure st = Some p
     /\ m = (fn ++ ": direct call to OPEN in procedure "
                ++ String dquote p ++ String squote EmptyString)%string)
  /\ (re_close line = Some tt ->
      exists p,
        curr_procedure st = Some p
        /\ m = (fn ++ ": direct call to CLOSE in procedure "
                   ++ String dquote p ++ String squote EmptyString)%string).
Proof.
  intros Hm. split; intros Hl.
  - rewrite loop_body_open in Hm by congruence.
    apply stdout_when_call in Hm. destruct Hm as [p [Hp ->]].
    exists p. split; [assumption|]. reflexivity.
  - rewrite loop_body_close in Hm by congruence.
    apply stdout_when_call in Hm. destruct Hm as [p [Hp ->]].
    exists p. split; [assumption|]. reflexivity.
Qed.

(** C4, at an [OPEN] line of [foo.log] inside procedure [foo]. *)
Lemma call_diagnostic_text_witness :
  In ("foo.log: direct call to OPEN in procedure " ++ String dquote "foo'")%string
     (stdout (loop_body "foo.log" (mkScanState (Some "foo") None)
                "  OPEN(unit=10)"))
  /\ re_open "  OPEN(unit=10)" = Some tt
  /\ exists p,
       curr_procedure (mkScanState (Some "foo") None) = Some p
       /\ ("foo.log: direct call to OPEN in procedure " ++ String dquote "foo'"
           = "foo.log" ++ ": direct call to OPEN in procedure "
               ++ String dquote p ++ String squote EmptyString)%string.
Proof.
  assert (H : In ("foo.log: direct call to OPEN in procedure "
                    ++ String dquote "foo'")%string
                 (stdout (loop_body "foo.log" (mkScanState (Some "foo") None)
                            "  OPEN(unit=10)"))).
  { left. reflexivity. }
  split; [exact H|]. split; [reflexivity|].
  apply (call_diagnostic_text "foo.log" (mkScanState (Some "foo") None)
           "  OPEN(unit=10)" _ H).
  reflexivity.
Defined.

(** C5: while no line has matched the procedure pattern the scan prints
    nothing and raises nothing, and [curr_procedure] is still [None] after
    those lines; the output of the file is the output of the lines from
    the first procedure line on. *)
Theorem no_diagnostic_before_first_procedure
        (fs : files) (fn log : string) (before rest : list string) :
  fs fn = Some log ->
  split_newline log = before ++ rest ->
  Forall (fun l => re_procedure l = None) before ->
  exists sym,
    scan_lines fn before init_state = ([], inr (mkScanState None sym))
    /\ process_log_file fs fn =
       (scan_lines fn rest (mkScanState None sym) ;; ret tt).
Proof.
  intros Hfs Hsplit Hbefore.
  destruct (scan_lines_before_procedure fn before Hbefore None) as [sym E].
  exists sym. split; [exact E|].
  unfold process_log_file, read_file. rewrite Hfs, bind_ret_l, Hsplit.
  rewrite scan_lines_app. unfold init_state. rewrite E.
  now rewrite bind_ret_l.
Qed.

(** C5, at a file whose [OPEN], [CLOSE] and attributes lines come before
    its only procedure line. *)
Lemma no_diagnostic_before_first_procedure_witness :
  Forall (fun l => re_procedure l = None)
    ["  OPEN(unit=10)"; "  CLOSE(10)"; "  attributes: IMPLICIT-TYPE"]
  /\ exists sym,
       scan_lines "foo.log"
         ["  OPEN(unit=10)"; "  CLOSE(10)"; "  attributes: IMPLICIT-TYPE"]
         init_state = ([], inr (mkScanState None sym))
       /\ process_log_file
            (one_file "foo.log"
               (unlines ["  OPEN(unit=10)"; "  CLOSE(10)";
                         "  attributes: IMPLICIT-TYPE";
                         "  procedure name = foo"]))
            "foo.log" =
          (scan_lines "foo.log" ["  procedure name = foo"]
             (mkScanState None sym) ;; ret tt).
Proof.
  assert (H : Forall (fun l => re_procedure l = None)
                ["  OPEN(unit=10)"; "  CLOSE(10)"; "  attributes: IMPLICIT-TYPE"]).
  { repeat constructor. }
  split; [exact H|].
  apply (no_diagnostic_before_first_procedure
           (one_file "foo.log"
              (unlines ["  OPEN(unit=10)"; "  CLOSE(10)";
                        "  attributes: IMPLICIT-TYPE";
                        "  procedure name = foo"]))
           "foo.log"
           (unlines ["  OPEN(unit=10)"; "  CLOSE(10)";
                     "  attributes: IMPLICIT-TYPE";
                     "  procedure name = foo"])
           ["  OPEN(unit=10)"; "  CLOSE(10)"; "  attributes: IMPLICIT-TYPE"]
           ["  procedure name = foo"]);
    [reflexivity|reflexivity|exact H].
Defined.

(** C6 (as amended): without file arguments [main] prints the four usage
    lines, none of which holds a newline, and leaves through [sys.exit(1)];
    with file arguments that are all readable and whose scans do not raise
    [TypeError], it processes them all, in order, and the exit status is
    0. *)
Theorem main_exit_status :
  (forall (fs : files) (argv : list string),
      length argv < 2 ->
      main fs argv = ([usage_1; usage_2; usage_3; usage_4], inl (SystemExit 1))
      /\ exit_status (main fs argv) = 1%Z
      /\ length (stdout (main fs argv)) = 4
      /\ Forall (fun l => contains (String newline EmptyString) l = false)
           (stdout (main fs argv)))
  /\ (forall (fs : files) (prog : string) (log_files : list string),
         log_files <> [] ->
         Forall (fun fn => fs fn <> None) log_files ->
         Forall (fun fn => result (process_log_file fs fn) <> inl TypeError)
           log_files ->
         exit_status (main fs (prog :: log_files)) = 0%Z
         /\ result (main fs (prog :: log_files)) = inr tt
         /\ stdout (main fs (prog :: log_files)) =
            concat (map (fun fn => stdout (process_log_file fs fn)) log_files)).
Proof.
  split.
  - intros fs argv H. rewrite (main_without_files fs argv H).
    split; [reflexivity|]. split; [reflexivity|]. split; [reflexivity|].
    repeat constructor.
  - intros fs prog log_files Hne Hread Hscan.
    destruct log_files as [|fn rest]; [congruence|].
    rewrite main_with_files, for_files_completes.
    + repeat split.
    + rewrite Forall_forall in *. intros f Hf.
      apply process_log_file_completes; auto.
Qed.

(** C6, at a bare command line and at one readable file. *)
Lemma main_exit_status_witness :
  exit_status (main (fun _ => None) ["analyze_gfortran_ast.py"]) = 1%Z
  /\ length (stdout (main (fun _ => None) ["analyze_gfortran_ast.py"])) = 4
  /\ exit_status
       (main (one_file "foo.log"
                (unlines ["  procedure name = foo"; "  OPEN(unit=10)"]))
          ["analyze_gfortran_ast.py"; "foo.log"]) = 0%Z.
Proof.
  split; [|split].
  - apply (proj1 main_exit_status (fun _ => None) ["analyze_gfortran_ast.py"]).
    cbn. lia.
  - apply (proj1 main_exit_status (fun _ => None) ["analyze_gfortran_ast.py"]).
    cbn. lia.
  - apply (proj2 main_exit_status
             (one_file "foo.log"
                (unlines ["  procedure name = foo"; "  OPEN(unit=10)"]))
             "analyze_gfortran_ast.py" ["foo.log"]).
    + discriminate.
    + repeat constructor. discriminate.
    + repeat constructor. discriminate.
Defined.

(** C6 as stated fails on a readable file whose scan raises: the only
    file is readable, nothing is printed and the exit status is 1. *)
Lemma readable_file_exit_status_1 :
  one_file "foo.log"
    (unlines ["  procedure name = foo"; "  attributes: IMPLICIT-TYPE"])
    "foo.log" <> None
  /\ main (one_file "foo.log"
             (unlines ["  procedure name = foo"; "  attributes: IMPLICIT-TYPE"]))
       ["analyze_gfortran_ast.py"; "foo.log"] = ([], inl TypeError)
  /\ exit_status
       (main (one_file "foo.log"
                (unlines ["  procedure name = foo";
                          "  attributes: IMPLICIT-TYPE"]))
          ["analyze_gfortran_ast.py"; "foo.log"]) = 1%Z.
Proof.
  split; [discriminate|]. split; reflexivity.
Qed.

(** C7: a file with the line [  procedure name = foo], later a line the
    symbol pattern matches with [bar] as its group, later the line
    [  attributes: IMPLICIT-SAVE, SOME-OTHER], and around them only lines
    that no pattern matches, prints exactly one diagnostic, the
    [IMPLICIT-SAVE] one for symbol [bar] in procedure [foo].  Lemma
    [re_symbol_bar] gives lines of the dump that the symbol pattern matches
    with that group. *)
Theorem implicit_save_scenario
        (fs : files) (fn log symtree_line : string)
        (j1 j2 j3 j4 : list string) :
  fs fn = Some log ->
  split_newline log =
    j1 ++ "  procedure name = foo"
       :: j2 ++ symtree_line
       :: j3 ++ "  attributes: IMPLICIT-SAVE, SOME-OTHER" :: j4 ->
  re_symbol symtree_line = Some "bar" ->
  Forall plain j1 -> Forall plain j2 -> Forall plain j3 -> Forall plain j4 ->
  process_log_file fs fn =
  ([(fn ++ ": Symbol " ++ dq ++ "bar" ++ dq ++ " in procedure " ++ dq ++ "foo"
        ++ dq ++ " is IMPLICIT-SAVE")%string],
   inr tt).
Proof.
  intros Hfs Hsplit Hsym H1 H2 H3 H4.
  unfold process_log_file, read_file. rewrite Hfs, bind_ret_l, Hsplit.
  rewrite scan_lines_app, (scan_lines_plain fn j1 _ H1), bind_ret_l.
  rewrite scan_lines_cons.
  rewrite (loop_body_procedure fn _ "  procedure name = foo" "foo" eq_refl).
  rewrite bind_ret_l.
  rewrite scan_lines_app, (scan_lines_plain fn j2 _ H2), bind_ret_l.
  rewrite scan_lines_cons.
  rewrite (loop_body_symbol fn _ symtree_line "bar"
             (lead_s_not_procedure _ (re_symbol_lead _ _ Hsym)) Hsym).
  rewrite bind_ret_l.
  rewrite scan_lines_app, (scan_lines_plain fn j3 _ H3), bind_ret_l.
  rewrite scan_lines_cons.
  rewrite (loop_body_attr_known fn _ "  attributes: IMPLICIT-SAVE, SOME-OTHER"
             "f" "oo" "bar"); [|discriminate|reflexivity|reflexivity].
  cbn [bind]. rewrite (scan_lines_plain fn j4 _ H4).
  reflexivity.
Qed.

(** C7, at a dump with a header line and type lines around the three
    lines. *)
Lemma implicit_save_scenario_witness :
  split_newline
    (unlines ["Namespace: A-H: (REAL 4) I-N: (INTEGER 4) O-Z: (REAL 4)";
              "  procedure name = foo";
              "  symtree: 'bar'        || symbol: 'bar'          ";
              "    type spec : (REAL 4)";
              "  attributes: IMPLICIT-SAVE, SOME-OTHER";
              ""]) =
    ["Namespace: A-H: (REAL 4) I-N: (INTEGER 4) O-Z: (REAL 4)"]
      ++ "  procedure name = foo"
      :: [] ++ "  symtree: 'bar'        || symbol: 'bar'          "
      :: ["    type spec : (REAL 4)"]
      ++ "  attributes: IMPLICIT-SAVE, SOME-OTHER" :: [""]
  /\ re_symbol "  symtree: 'bar'        || symbol: 'bar'          " = Some "bar"
  /\ process_log_file
       (one_file "foo.log"
          (unlines ["Namespace: A-H: (REAL 4) I-N: (INTEGER 4) O-Z: (REAL 4)";
                    "  procedure name = foo";
                    "  symtree: 'bar'        || symbol: 'bar'          ";
                    "    type spec : (REAL 4)";
                    "  attributes: IMPLICIT-SAVE, SOME-OTHER";
                    ""]))
       "foo.log" =
     ([("foo.log" ++ ": Symbol " ++ dq ++ "bar" ++ dq ++ " in procedure " ++ dq
           ++ "foo" ++ dq ++ " is IMPLICIT-SAVE")%string],
      inr tt).
Proof.
  split; [reflexivity|]. split; [reflexivity|].
  apply (implicit_save_scenario
           (one_file "foo.log"
              (unlines ["Namespace: A-H: (REAL 4) I-N: (INTEGER 4) O-Z: (REAL 4)";
                        "  procedure name = foo";
                        "  symtree: 'bar'        || symbol: 'bar'          ";
                        "    type spec : (REAL 4)";
                        "  attributes: IMPLICIT-SAVE, SOME-OTHER";
                        ""]))
           "foo.log"
           (unlines ["Namespace: A-H: (REAL 4) I-N: (INTEGER 4) O-Z: (REAL 4)";
                     "  procedure name = foo";
                     "  symtree: 'bar'        || symbol: 'bar'          ";
                     "    type spec : (REAL 4)";
                     "  attributes: IMPLICIT-SAVE, SOME-OTHER";
                     ""])
           "  symtree: 'bar'        || symbol: 'bar'          "
           ["Namespace: A-H: (REAL 4) I-N: (INTEGER 4) O-Z: (REAL 4)"]
           [] ["    type spec : (REAL 4)"] [""]);
    try reflexivity; repeat constructor.
Defined.



(** C9: a procedure line prints nothing, sets [curr_procedure] to the
    captured name and leaves [curr_symbol] as it was; and through the
    lines that follow, as long as none is a symbol line, [curr_symbol]
    keeps that value, procedure lines among them included. *)
Theorem procedure_line_keeps_symbol
        (fn : string) (st : ScanState) (line g : string)
        (rest : list string) (out : list string) (st' : ScanState) :
  re_procedure line = Some g ->
  Forall (fun l => re_symbol l = None) rest ->
  scan_lines fn (line :: rest) st = (out, inr st') ->
  loop_body fn st line = ([], inr (mkScanState (Some g) (curr_symbol st)))
  /\ curr_symbol st' = curr_symbol st.
Proof.
  intros Hp Hrest Hscan.
  rewrite (loop_body_procedure fn st line g Hp).
  split; [reflexivity|].
  rewrite scan_lines_cons, (loop_body_procedure fn st line g Hp) in Hscan.
  rewrite bind_ret_l in Hscan.
  now rewrite (scan_lines_keeps_symbol fn rest Hrest _ _ _ Hscan).
Qed.

(** C9, at two procedures: the symbol [bar] seen in the first is the one
    reported for the attributes line of the second. *)
Lemma procedure_line_keeps_symbol_witness :
  re_procedure "  procedure name = second" = Some "second"
  /\ Forall (fun l => re_symbol l = None) ["  attributes: IMPLICIT-TYPE"]
  /\ scan_lines "foo.log"
       ["  procedure name = second"; "  attributes: IMPLICIT-TYPE"]
       (mkScanState (Some "first") (Some "bar")) =
     ([symbol_diagnostic "foo.log" "bar" "second" "IMPLICIT-TYPE"],
      inr (mkScanState (Some "second") (Some "bar")))
  /\ loop_body "foo.log" (mkScanState (Some "first") (Some "bar"))
       "  procedure name = second" =
     ([], inr (mkScanState (Some "second") (Some "bar")))
  /\ curr_symbol (mkScanState (Some "second") (Some "bar")) = Some "bar".
Proof.
  assert (H : Forall (fun l => re_symbol l = None)
                ["  attributes: IMPLICIT-TYPE"]).
  { repeat constructor. }
  split; [reflexivity|]. split; [exact H|]. split; [reflexivity|].
  apply (procedure_line_keeps_symbol "foo.log"
           (mkScanState (Some "first") (Some "bar"))
           "  procedure name = second" "second"
           ["  attributes: IMPLICIT-TYPE"]
           [symbol_diagnostic "foo.log" "bar" "second" "IMPLICIT-TYPE"]
           (mkScanState (Some "second") (Some "bar")));
    [reflexivity|exact H|reflexivity].
Defined.

(** ** Further properties of the scan *)

(** *** The patterns exclude one another *)

(** X1: no line is matched by two of the five patterns: each needs its
    own first visible character after the leading white space. *)
Theorem patterns_exclude_one_another (line : string) :
  match_count line <= 1.
Proof.
  unfold match_count.
  destruct (re_procedure line) as [g1|] eqn:E1;
    [apply re_procedure_lead in E1|];
    (destruct (re_symbol line) as [g2|] eqn:E2;
       [apply re_symbol_lead in E2|]);
    (destruct (re_attr line) as [g3|] eqn:E3;
       [apply re_attr_lead in E3|]);
    (destruct (re_open line) as [u4|] eqn:E4;
       [apply re_open_lead in E4|]);
    (destruct (re_close line) as [u5|] eqn:E5;
       [apply re_close_lead in E5|]);
    cbn [matched]; try congruence; cbn; lia.
Qed.

(** *** Symbol lines *)

(** X2: a symbol line prints nothing, raises nothing, sets [curr_symbol]
    to the captured name and leaves [curr_procedure] as it was. *)
Theorem symbol_line_sets_symbol_only
        (fn : string) (st : ScanState) (line g : string) :
  re_symbol line = Some g ->
  loop_body fn st line = ([], inr (mkScanState (curr_procedure st) (Some g))).
Proof.
  intros Hs.
  apply (loop_body_symbol fn st line g); [|exact Hs].
  apply lead_s_not_procedure. now apply re_symbol_lead in Hs.
Qed.

(** X2, at a symbol line of the dump inside procedure [foo]. *)
Lemma symbol_line_sets_symbol_only_witness :
  re_symbol "  symtree: 'x'           || symbol: 'x'            " = Some "x"
  /\ loop_body "foo.log" (mkScanState (Some "foo") (Some "bar"))
       "  symtree: 'x'           || symbol: 'x'            " =
     ([], inr (mkScanState (Some "foo") (Some "x"))).
Proof.
  split; [reflexivity|].
  apply (symbol_line_sets_symbol_only "foo.log"
           (mkScanState (Some "foo") (Some "bar"))
           "  symtree: 'x'           || symbol: 'x'            " "x").
  reflexivity.
Defined.

(** *** [CLOSE] lines and the exception list *)

(** X3: for a line the [CLOSE] pattern matches, while [curr_procedure]
    holds a name that is not empty, the iteration prints the [CLOSE]
    diagnostic when the base name of the file is not in the exception
    list, nothing when it is, and leaves the state as it was. *)
Theorem close_line_diagnostic_iff_not_exception
        (fn : string) (st : ScanState) (line : string) (c : ascii) (p : string) :
  re_close line = Some tt ->
  curr_procedure st = Some (String c p) ->
  result (loop_body fn st line) = inr st
  /\ (In (base_name fn) open_close_exceptions ->
      stdout (loop_body fn st line) = [])
  /\ (~ In (base_name fn) open_close_exceptions ->
      stdout (loop_body fn st line) =
      [(fn ++ ": direct call to CLOSE in procedure " ++ dq ++ String c p ++ "'")%string]).
Proof.
  intros Ho Hp.
  rewrite loop_body_close by congruence.
  rewrite (print_call_msg_some fn st "CLOSE" (String c p) Hp), Hp.
  cbn [truthy andb]. rewrite when_print_ret.
  split; [reflexivity|]. split.
  - intros Hin. apply In_list_In in Hin. now rewrite Hin.
  - intros Hin. apply In_list_not_In in Hin. now rewrite Hin.
Qed.

(** X3, at [machine.log] and [foo.log]. *)
Lemma close_line_diagnostic_witness :
  re_close "  CLOSE(10)" = Some tt
  /\ stdout (loop_body "machine.log" (mkScanState (Some "foo") None)
               "  CLOSE(10)") = []
  /\ stdout (loop_body "foo.log" (mkScanState (Some "foo") None)
               "  CLOSE(10)") =
     [("foo.log: direct call to CLOSE in procedure " ++ dq ++ "foo'")%string].
Proof.
  split; [reflexivity|]. split.
  - apply (close_line_diagnostic_iff_not_exception "machine.log"
             (mkScanState (Some "foo") None) "  CLOSE(10)" "f" "oo");
      [reflexivity|reflexivity|].
    apply In_list_In. reflexivity.
  - apply (close_line_diagnostic_iff_not_exception "foo.log"
             (mkScanState (Some "foo") None) "  CLOSE(10)" "f" "oo");
      [reflexivity|reflexivity|].
    apply In_list_not_In. reflexivity.
Defined.

Lemma loop_body_open_or_close_exception
      (fn : string) (st : ScanState) (line : string) :
  In (base_name fn) open_close_exceptions ->
  open_or_close line = true ->
  loop_body fn st line = ret st.
Proof.
  intros Hin Hoc. apply In_list_In in Hin.
  unfold open_or_close in Hoc. apply orb_true_iff in Hoc.
  destruct Hoc as [Ho|Hc].
  - rewrite loop_body_open by (destruct (re_open line); [congruence|discriminate]).
    now rewrite Hin, andb_false_r, when_false, bind_ret_l.
  - rewrite loop_body_close by (destruct (re_close line); [congruence|discriminate]).
    now rewrite Hin, andb_false_r, when_false, bind_ret_l.
Qed.

(** X4: in a file whose base name is in the exception list the [OPEN]
    and [CLOSE] lines count for nothing: the scan prints, raises and
    returns what it does on the lines without them. *)
Theorem exception_file_ignores_open_close
        (fn : string) (lines : list string) (st : ScanState) :
  In (base_name fn) open_close_exceptions ->
  scan_lines fn lines st =
  scan_lines fn (filter (fun l => negb (open_or_close l)) lines) st.
Proof.
  intros Hin. revert st. induction lines as [|l lines IH]; intros st;
    [reflexivity|].
  cbn [filter]. destruct (open_or_close l) eqn:E; cbn [negb].
  - rewrite scan_lines_cons, (loop_body_open_or_close_exception fn st l Hin E).
    rewrite bind_ret_l. apply IH.
  - rewrite !scan_lines_cons. apply bind_ext. intros a. apply IH.
Qed.

(** X4, at [cp_files.log]. *)
Lemma exception_file_ignores_open_close_witness :
  In (base_name "cp_files.log") open_close_exceptions
  /\ scan_lines "cp_files.log"
       ["  procedure name = foo"; "  OPEN(unit=10)"; "  CLOSE(10)"]
       init_state =
     scan_lines "cp_files.log" ["  procedure name = foo"] init_state.
Proof.
  assert (H : In (base_name "cp_files.log") open_close_exceptions).
  { apply In_list_In. reflexivity. }
  split; [exact H|].
  exact (exception_file_ignores_open_close "cp_files.log"
           ["  procedure name = foo"; "  OPEN(unit=10)"; "  CLOSE(10)"]
           init_state H).
Defined.

(** *** Files without lines that print *)

Lemma loop_body_silent (fn : string) (st : ScanState) (line : string) :
  max_messages line = 0 ->
  exists st', loop_body fn st line = ret st'.
Proof.
  unfold max_messages, open_or_close. intros H.
  destruct (re_attr line) as [g|] eqn:Ha; [discriminate H|].
  destruct (re_open line) as [u|] eqn:Ho; [discriminate H|].
  destruct (re_close line) as [u|] eqn:Hc; [discriminate H|].
  unfold loop_body.
  destruct (re_procedure line) as [g|]; [eauto|].
  destruct (re_symbol line) as [g|]; [eauto|].
  exists st. now rewrite checks_plain, bind_ret_l.
Qed.

Lemma scan_lines_silent (fn : string) (lines : list string) :
  Forall (fun l => max_messages l = 0) lines ->
  forall st, exists st', scan_lines fn lines st = ret st'.
Proof.
  induction 1 as [|l lines Hl _ IH]; intros st; [now exists st|].
  destruct (loop_body_silent fn st l Hl) as [st1 E1].
  destruct (IH st1) as [st2 E2]. exists st2.
  now rewrite scan_lines_cons, E1, bind_ret_l.
Qed.

(** X5: a readable file without attributes, [OPEN] and [CLOSE] lines is
    scanned to the end and nothing is printed, whatever procedure and
    symbol lines it holds. *)
Theorem file_without_checked_lines_is_silent
        (fs : files) (fn log : string) :
  fs fn = Some log ->
  Forall (fun l => max_messages l = 0) (split_newline log) ->
  process_log_file fs fn = ([], inr tt).
Proof.
  intros Hfs Hq. unfold process_log_file, read_file.
  rewrite Hfs, bind_ret_l.
  destruct (scan_lines_silent fn _ Hq init_state) as [st' E].
  now rewrite E, bind_ret_l.
Qed.

(** X5, at a log of procedure, symbol and type lines. *)
Lemma file_without_checked_lines_is_silent_witness :
  Forall (fun l => max_messages l = 0)
    (split_newline
       (unlines ["  procedure name = foo";
                 "  symtree: 'bar'        || symbol: 'bar'          ";
                 "    type spec : (REAL 4)"; ""]))
  /\ process_log_file
       (one_file "foo.log"
          (unlines ["  procedure name = foo";
                    "  symtree: 'bar'        || symbol: 'bar'          ";
                    "    type spec : (REAL 4)"; ""]))
       "foo.log" = ([], inr tt).
Proof.
  assert (H : Forall (fun l => max_messages l = 0)
                (split_newline
                   (unlines ["  procedure name = foo";
                             "  symtree: 'bar'        || symbol: 'bar'          ";
                             "    type spec : (REAL 4)"; ""]))).
  { repeat constructor. }
  split; [exact H|].
  apply (file_without_checked_lines_is_silent
           (one_file "foo.log"
              (unlines ["  procedure name = foo";
                        "  symtree: 'bar'        || symbol: 'bar'          ";
                        "    type spec : (REAL 4)"; ""]))
           "foo.log"
           (unlines ["  procedure name = foo";
                     "  symtree: 'bar'        || symbol: 'bar'          ";
                     "    type spec : (REAL 4)"; ""]));
    [reflexivity|exact H].
Defined.

(** *** The state after a scan *)

Lemma loop_body_state (fn : string) (st st1 : ScanState) (line : string) :
  result (loop_body fn st line) = inr st1 ->
  curr_procedure st1 =
    match re_procedure line with
    | Some g => Some g
    | None => curr_procedure st
    end
  /\ curr_symbol st1 =
     match re_symbol line with
     | Some g => Some g
     | None => curr_symbol st
     end.
Proof.
  unfold loop_body.
  destruct (re_procedure line) as [g|] eqn:Hp.
  - assert (Hs : re_symbol line = None).
    { apply re_procedure_lead in Hp. other_lead Hp. }
    rewrite Hs. cbn. intros H. injection H as <-. now split.
  - destruct (re_symbol line) as [g|] eqn:Hs.
    + cbn. intros H. injection H as <-. now split.
    + intros H. apply result_bind_ret in H. now subst.
Qed.

(** X6: when a scan reaches the end of its lines, [curr_procedure] is
    the name captured on the last procedure line and [curr_symbol] the name
    captured on the last symbol line, each left as it was when there was no
    such line. *)
Theorem scan_final_state
        (fn : string) (lines : list string) (st st' : ScanState)
        (out : list string) :
  scan_lines fn lines st = (out, inr st') ->
  curr_procedure st' = last_group re_procedure lines (curr_procedure st)
  /\ curr_symbol st' = last_group re_symbol lines (curr_symbol st).
Proof.
  revert st out. induction lines as [|l lines IH]; intros st out H.
  - cbn in H. injection H as _ <-. now split.
  - rewrite scan_lines_cons in H.
    destruct (loop_body fn st l) as [o1 [e|st1]] eqn:E; [discriminate H|].
    cbn [bind] in H.
    destruct (scan_lines fn lines st1) as [o2 r2] eqn:E2.
    injection H as _ ->.
    destruct (IH _ _ E2) as [Hp Hs].
    destruct (loop_body_state fn st st1 l) as [Hp1 Hs1]; [now rewrite E|].
    cbn [last_group]. now rewrite Hp, Hs, Hp1, Hs1.
Qed.

(** X6, at a dump of two procedures. *)
Lemma scan_final_state_witness :
  scan_lines "foo.log"
    ["  procedure name = first";
     "  symtree: 'bar'        || symbol: 'bar'          ";
     "  procedure name = second";
     "  OPEN(unit=10)"]
    init_state =
    ([("foo.log: direct call to OPEN in procedure " ++ dq ++ "second'")%string],
     inr (mkScanState (Some "second") (Some "bar")))
  /\ curr_procedure (mkScanState (Some "second") (Some "bar")) =
     last_group re_procedure
       ["  procedure name = first";
        "  symtree: 'bar'        || symbol: 'bar'          ";
        "  procedure name = second";
        "  OPEN(unit=10)"]
       (curr_procedure init_state)
  /\ curr_symbol (mkScanState (Some "second") (Some "bar")) =
     last_group re_symbol
       ["  procedure name = first";
        "  symtree: 'bar'        || symbol: 'bar'          ";
        "  procedure name = second";
        "  OPEN(unit=10)"]
       (curr_symbol init_state).
Proof.
  split; [reflexivity|].
  apply (scan_final_state "foo.log"
           ["  procedure name = first";
            "  symtree: 'bar'        || symbol: 'bar'          ";
            "  procedure name = second";
            "  OPEN(unit=10)"]
           init_state (mkScanState (Some "second") (Some "bar"))
           [("foo.log: direct call to OPEN in procedure " ++ dq ++ "second'")%string]).
  reflexivity.
Defined.

(** *** When the scan cannot fail *)

(** The checks raise nothing when the symbol is known or the line is not
    an attributes line naming one of the two attributes. *)
Lemma checks_complete (fn : string) (st : ScanState) (line : string) :
  curr_symbol st <> None \/ implicit_line line = false ->
  result (checks fn st line) = inr tt.
Proof.
  intros H. destruct (truthy (curr_procedure st)) eqn:Ht;
    [|now rewrite checks_not_truthy].
  destruct (curr_procedure st) as [p|] eqn:Hp; [|discriminate Ht].
  unfold checks. rewrite Hp, Ht.
  rewrite !(print_call_msg_some fn st _ p Hp).
  destruct (curr_symbol st) as [s|] eqn:Hs.
  - rewrite !(print_symbol_msg_some fn st _ s p Hs Hp).
    destruct (matched (re_attr line)), (contains "IMPLICIT-SAVE" line),
      (contains "PARAMETER" line), (contains "IMPLICIT-TYPE" line),
      (matched (re_open line)), (matched (re_close line)),
      (In_list (base_name fn) open_close_exceptions); reflexivity.
  - destruct H as [H|H]; [congruence|].
    unfold implicit_line in H.
    destruct (matched (re_attr line)), (contains "IMPLICIT-SAVE" line),
      (contains "PARAMETER" line), (contains "IMPLICIT-TYPE" line),
      (matched (re_open line)), (matched (re_close line)),
      (In_list (base_name fn) open_close_exceptions);
      try discriminate H; reflexivity.
Qed.

Lemma loop_body_complete (fn : string) (st : ScanState) (line : string) :
  curr_symbol st <> None \/ implicit_line line = false ->
  exists out st1, loop_body fn st line = (out, inr st1).
Proof.
  intros H. unfold loop_body.
  destruct (re_procedure line) as [g|]; [unfold ret; eauto|].
  destruct (re_symbol line) as [g|]; [unfold ret; eauto|].
  pose proof (checks_complete fn st line H) as Hc.
  destruct (checks fn st line) as [out [e|[]]]; [discriminate Hc|].
  exists out, st. cbn. now rewrite app_nil_r.
Qed.

Lemma scan_lines_symbol_known (fn : string) (lines : list string) :
  forall st,
    curr_symbol st <> None ->
    exists out st',
      scan_lines fn lines st = (out, inr st') /\ curr_symbol st' <> None.
Proof.
  induction lines as [|l lines IH]; intros st Hs.
  - exists [], st. now split.
  - destruct (loop_body_complete fn st l (or_introl Hs)) as (o1 & st1 & E1).
    assert (Hs1 : curr_symbol st1 <> None).
    { destruct (loop_body_state fn st st1 l) as [_ H1]; [now rewrite E1|].
      rewrite H1. destruct (re_symbol l); congruence. }
    destruct (IH st1 Hs1) as (o2 & st2 & E2 & Hs2).
    exists (o1 ++ o2), st2. split; [|exact Hs2].
    rewrite scan_lines_cons, E1. cbn [bind]. now rewrite E2.
Qed.

(** X7: once [curr_symbol] holds a name the scan cannot fail: from such a
    state every list of lines is scanned to the end, and [curr_symbol]
    holds a name at the end too. *)
Theorem symbol_known_scan_completes
        (fn : string) (lines : list string) (st : ScanState) (s : string) :
  curr_symbol st = Some s ->
  exists out st' s',
    scan_lines fn lines st = (out, inr st') /\ curr_symbol st' = Some s'.
Proof.
  intros Hs.
  destruct (scan_lines_symbol_known fn lines st) as (out & st' & E & Hs');
    [congruence|].
  destruct (curr_symbol st') as [s'|] eqn:E'; [|congruence].
  exists out, st', s'. now split.
Qed.

(** X7, at an attributes line met with a known symbol. *)
Lemma symbol_known_scan_completes_witness :
  curr_symbol (mkScanState (Some "foo") (Some "bar")) = Some "bar"
  /\ exists out st' s',
       scan_lines "foo.log" ["  attributes: (IMPLICIT-TYPE)"]
         (mkScanState (Some "foo") (Some "bar")) = (out, inr st')
       /\ curr_symbol st' = Some s'.
Proof.
  split; [reflexivity|].
  apply (symbol_known_scan_completes "foo.log"
           ["  attributes: (IMPLICIT-TYPE)"]
           (mkScanState (Some "foo") (Some "bar")) "bar").
  reflexivity.
Defined.

Lemma scan_lines_no_implicit (fn : string) (lines : list string) :
  Forall (fun l => implicit_line l = false) lines ->
  forall st, exists out st', scan_lines fn lines st = (out, inr st').
Proof.
  induction 1 as [|l lines Hl _ IH]; intros st.
  - now exists [], st.
  - destruct (loop_body_complete fn st l (or_intror Hl)) as (o1 & st1 & E1).
    destruct (IH st1) as (o2 & st2 & E2).
    exists (o1 ++ o2), st2.
    rewrite scan_lines_cons, E1. cbn [bind]. now rewrite E2.
Qed.

(** X8: a readable file is processed to the end when no attributes line
    naming [IMPLICIT-SAVE] or [IMPLICIT-TYPE] comes before its first symbol
    line: the lines split into a part without such attributes lines and a
    part that is empty or starts with a symbol line. *)
Theorem file_with_symbols_first_completes
        (fs : files) (fn log : string) (before rest : list string) :
  fs fn = Some log ->
  split_newline log = before ++ rest ->
  Forall (fun l => implicit_line l = false) before ->
  match rest with
  | [] => True
  | l :: _ => re_symbol l <> None
  end ->
  result (process_log_file fs fn) = inr tt.
Proof.
  intros Hfs Hsplit Hbefore Hrest.
  unfold process_log_file, read_file. rewrite Hfs, bind_ret_l, Hsplit.
  rewrite scan_lines_app.
  destruct (scan_lines_no_implicit fn before Hbefore init_state)
    as (o1 & st1 & E1).
  rewrite E1. cbn [bind].
  destruct rest as [|l rest].
  - cbn. reflexivity.
  - destruct (re_symbol l) as [g|] eqn:Hl; [|congruence].
    rewrite scan_lines_cons.
    assert (Hp : re_procedure l = None).
    { apply lead_s_not_procedure. now apply re_symbol_lead in Hl. }
    rewrite (loop_body_symbol fn st1 l g Hp Hl), bind_ret_l.
    destruct (scan_lines_symbol_known fn rest
                (mkScanState (curr_procedure st1) (Some g)))
      as (o2 & st2 & E2 & _); [discriminate|].
    rewrite E2. reflexivity.
Qed.

(** X8, at a dump whose attributes line follows its symbol line. *)
Lemma file_with_symbols_first_completes_witness :
  Forall (fun l => implicit_line l = false)
    ["  procedure name = foo"; "  attributes: (PROCEDURE)"]
  /\ re_symbol "  symtree: 'bar'        || symbol: 'bar'          " <> None
  /\ result
       (process_log_file
          (one_file "foo.log"
             (unlines ["  procedure name = foo"; "  attributes: (PROCEDURE)";
                       "  symtree: 'bar'        || symbol: 'bar'          ";
                       "  attributes: (VARIABLE IMPLICIT-SAVE)"]))
          "foo.log") = inr tt.
Proof.
  assert (H : Forall (fun l => implicit_line l = false)
                ["  procedure name = foo"; "  attributes: (PROCEDURE)"]).
  { repeat constructor. }
  split; [exact H|]. split; [discriminate|].
  apply (file_with_symbols_first_completes
           (one_file "foo.log"
              (unlines ["  procedure name = foo"; "  attributes: (PROCEDURE)";
                        "  symtree: 'bar'        || symbol: 'bar'          ";
                        "  attributes: (VARIABLE IMPLICIT-SAVE)"]))
           "foo.log"
           (unlines ["  procedure name = foo"; "  attributes: (PROCEDURE)";
                     "  symtree: 'bar'        || symbol: 'bar'          ";
                     "  attributes: (VARIABLE IMPLICIT-SAVE)"])
           ["  procedure name = foo"; "  attributes: (PROCEDURE)"]
           ["  symtree: 'bar'        || symbol: 'bar'          ";
            "  attributes: (VARIABLE IMPLICIT-SAVE)"]);
    [reflexivity|reflexivity|exact H|discriminate].
Defined.

(** *** What the messages look like *)

Lemma prefix_refl_append (a b : string) :
  String.prefix a (a ++ b) = true.
Proof.
  induction a as [|c a IH]; cbn.
  - now destruct b.
  - destruct (ascii_dec c c); [exact IH|congruence].
Qed.

Lemma prefix_file_name (fn rest : string) :
  String.prefix (fn ++ ": ") (fn ++ String ":" (String " " rest)) = true.
Proof.
  change (fn ++ String ":" (String " " rest))%string
    with (fn ++ (": " ++ rest))%string.
  rewrite <- append_assoc. apply prefix_refl_append.
Qed.

Lemma Forall_stdout_bind {A B : Type} (P : string -> Prop)
      (m : M A) (f : A -> M B) :
  Forall P (stdout m) -> (forall a, Forall P (stdout (f a))) ->
  Forall P (stdout (bind m f)).
Proof.
  intros Hm Hf. destruct m as [out [e|a]]; cbn; [exact Hm|].
  specialize (Hf a). destruct (f a) as [out' r]. cbn in *.
  apply Forall_app. now split.
Qed.

Lemma Forall_stdout_when (P : string -> Prop) (b : bool) (m : M unit) :
  Forall P (stdout m) -> Forall P (stdout (when b m)).
Proof. destruct b; [trivial|constructor]. Qed.

Lemma Forall_stdout_symbol_msg (fn : string) (st : ScanState) (what : string) :
  Forall (fun m => String.prefix (fn ++ ": ") m = true)
    (stdout (print_symbol_msg fn st what)).
Proof.
  destruct (curr_symbol st) as [s|] eqn:Hs.
  - destruct (curr_procedure st) as [p|] eqn:Hp.
    + rewrite (print_symbol_msg_some fn st what s p Hs Hp).
      repeat constructor. apply prefix_file_name.
    + unfold print_symbol_msg, str_add. rewrite Hs, Hp. constructor.
  - rewrite (print_symbol_msg_none fn st what Hs). constructor.
Qed.

Lemma Forall_stdout_call_msg (fn : string) (st : ScanState) (what : string) :
  Forall (fun m => String.prefix (fn ++ ": ") m = true)
    (stdout (print_call_msg fn st what)).
Proof.
  destruct (curr_procedure st) as [p|] eqn:Hp.
  - rewrite (print_call_msg_some fn st what p Hp).
    repeat constructor. apply prefix_file_name.
  - unfold print_call_msg, str_add. rewrite Hp. constructor.
Qed.

Lemma Forall_stdout_loop_body (fn : string) (st : ScanState) (line : string) :
  Forall (fun m => String.prefix (fn ++ ": ") m = true)
    (stdout (loop_body fn st line)).
Proof.
  unfold loop_body.
  destruct (re_procedure line); [constructor|].
  destruct (re_symbol line); [constructor|].
  unfold checks.
  repeat (apply Forall_stdout_bind; [|intro]);
    try apply Forall_stdout_when;
    first [ apply Forall_stdout_symbol_msg | apply Forall_stdout_call_msg
          | constructor ].
Qed.

Lemma Forall_stdout_scan_lines (fn : string) (lines : list string) :
  forall st,
    Forall (fun m => String.prefix (fn ++ ": ") m = true)
      (stdout (scan_lines fn lines st)).
Proof.
  induction lines as [|l lines IH]; intros st; [constructor|].
  rewrite scan_lines_cons.
  apply Forall_stdout_bind; [apply Forall_stdout_loop_body|exact IH].
Qed.

(** X9: every line a file's scan prints starts with the name of the
    file, as it was given, followed by a colon and a space. *)
Theorem every_message_names_the_file (fs : files) (fn m : string) :
  In m (stdout (process_log_file fs fn)) ->
  String.prefix (fn ++ ": ") m = true.
Proof.
  revert m. apply Forall_forall.
  unfold process_log_file, read_file.
  destruct (fs fn) as [log|]; [|constructor].
  rewrite bind_ret_l.
  apply Forall_stdout_bind; [apply Forall_stdout_scan_lines|].
  intros _. constructor.
Qed.

(** X9, at the only message of [a.log]. *)
Lemma every_message_names_the_file_witness :
  In (symbol_diagnostic "a.log" "bar" "foo" "IMPLICIT-SAVE")
     (stdout (process_log_file two_logs "a.log"))
  /\ String.prefix ("a.log" ++ ": ")
       (symbol_diagnostic "a.log" "bar" "foo" "IMPLICIT-SAVE") = true.
Proof.
  assert (H : In (symbol_diagnostic "a.log" "bar" "foo" "IMPLICIT-SAVE")
                 (stdout (process_log_file two_logs "a.log"))).
  { left. reflexivity. }
  split; [exact H|].
  exact (every_message_names_the_file two_logs "a.log" _ H).
Defined.

(** *** How a run ends *)

(** X10: a file that cannot be read ends the run at once: what the files
    before it printed stays, nothing else is printed, the run ends in
    [IOError], and the files after it are not looked at. *)
Theorem unreadable_file_aborts_run
        (fs : files) (prog : string) (before : list string) (fn : string)
        (after : list string) :
  result (for_files fs before) = inr tt ->
  fs fn = None ->
  main fs (prog :: before ++ fn :: after) =
  (stdout (for_files fs before), inl IOError).
Proof.
  intros Hbefore Hfn.
  assert (Hmain : main fs (prog :: before ++ fn :: after) =
                  for_files fs (before ++ fn :: after)).
  { destruct before; reflexivity. }
  rewrite Hmain, for_files_app.
  cbn [for_files]. unfold process_log_file, read_file. rewrite Hfn.
  destruct (for_files fs before) as [out [e|[]]]; [discriminate Hbefore|].
  cbn. now rewrite app_nil_r.
Qed.

(** X10, at [two_logs] with a missing file between the two logs. *)
Lemma unreadable_file_aborts_run_witness :
  result (for_files two_logs ["a.log"]) = inr tt
  /\ two_logs "missing.log" = None
  /\ main two_logs
       ("analyze_gfortran_ast.py" :: ["a.log"] ++ "missing.log" :: ["b.log"]) =
     ([symbol_diagnostic "a.log" "bar" "foo" "IMPLICIT-SAVE"], inl IOError).
Proof.
  split; [reflexivity|]. split; [reflexivity|].
  apply (unreadable_file_aborts_run two_logs "analyze_gfortran_ast.py"
           ["a.log"] "missing.log" ["b.log"]);
    reflexivity.
Defined.

Lemma process_log_file_raises (fs : files) (fn : string) (e : exn) :
  result (process_log_file fs fn) = inl e ->
  (e = IOError /\ fs fn = None) \/ (e = TypeError /\ fs fn <> None).
Proof.
  unfold process_log_file, read_file.
  destruct (fs fn) as [log|].
  - rewrite bind_ret_l. intros H. right. split; [|discriminate].
    revert H. apply only_TypeError_bind.
    + apply only_TypeError_scan_lines.
    + intros a. apply only_TypeError_ret.
  - cbn. intros H. injection H as <-. now left.
Qed.

Lemma for_files_raises (fs : files) (log_files : list string) (e : exn) :
  result (for_files fs log_files) = inl e -> e = IOError \/ e = TypeError.
Proof.
  induction log_files as [|fn rest IH]; [discriminate|].
  cbn [for_files].
  destruct (process_log_file fs fn) as [out [e'|[]]] eqn:E.
  - cbn. intros H. injection H as <-.
    destruct (process_log_file_raises fs fn e') as [[-> _]|[-> _]];
      [now rewrite E|now left|now right].
  - cbn [bind]. destruct (for_files fs rest) as [out' r]. exact IH.
Qed.

(** X11: the exit status of the script is 0 or 1, and it is 0 exactly
    when file arguments were given and every one of them was processed to
    the end. *)
Theorem exit_status_zero_or_one (fs : files) (argv : list string) :
  (exit_status (main fs argv) = 0%Z \/ exit_status (main fs argv) = 1%Z)
  /\ (exit_status (main fs argv) = 0%Z <->
      2 <= length argv
      /\ Forall (fun fn => result (process_log_file fs fn) = inr tt) (tl argv)).
Proof.
  destruct (Nat.lt_ge_cases (length argv) 2) as [Hlt|Hge].
  - rewrite (main_without_files fs argv Hlt). cbn. split; [now right|].
    split; [discriminate|]. intros [H _]. lia.
  - assert (Hmain : main fs argv = for_files fs (tl argv)).
    { unfold main. apply Nat.ltb_ge in Hge. now rewrite Hge. }
    rewrite Hmain. clear Hmain.
    assert (Hiff : result (for_files fs (tl argv)) = inr tt <->
                   Forall (fun fn => result (process_log_file fs fn) = inr tt)
                     (tl argv)).
    { induction (tl argv) as [|fn rest IH]; [split; [constructor|reflexivity]|].
      cbn [for_files].
      destruct (process_log_file fs fn) as [out [e|[]]] eqn:E.
      - cbn. split; [discriminate|]. intros H. inversion H as [|? ? H1 _].
        rewrite E in H1. discriminate H1.
      - cbn [bind].
        destruct (for_files fs rest) as [out' r] eqn:E'.
        cbn [result snd] in *. rewrite IH. split.
        + intros H. constructor; [now rewrite E|exact H].
        + intros H. now inversion H. }
    unfold exit_status.
    destruct (result (for_files fs (tl argv))) as [e|[]] eqn:E.
    + destruct (for_files_raises fs (tl argv) e E) as [->| ->].
      * split; [now right|]. split; [discriminate|].
        intros [_ H]. apply Hiff in H. discriminate H.
      * split; [now right|]. split; [discriminate|].
        intros [_ H]. apply Hiff in H. discriminate H.
    + split; [now left|]. split; [|reflexivity].
      intros _. split; [exact Hge|]. now apply Hiff.
Qed.

(** X11, at a bare command line and at the two logs. *)
Lemma exit_status_zero_or_one_witness :
  exit_status (main two_logs ["analyze_gfortran_ast.py"]) = 1%Z
  /\ exit_status (main two_logs ["analyze_gfortran_ast.py"; "a.log"; "b.log"]) =
     0%Z.
Proof.
  split; [reflexivity|].
  apply (proj2 (exit_status_zero_or_one two_logs
                  ["analyze_gfortran_ast.py"; "a.log"; "b.log"])).
  split; [cbn; lia|]. repeat constructor.
Defined.

(** *** The base name of a file *)

Lemma last_dot_without_dot (s : string) :
  contains "." s = false -> last_dot s = None.
Proof.
  induction s as [|c s IH]; [reflexivity|].
  cbn [contains last_dot String.prefix]. intros H.
  apply orb_false_iff in H. destruct H as [H1 H2].
  rewrite (IH H2). unfold dot_char.
  destruct (Ascii.eqb_spec c ".") as [->|_]; [|reflexivity].
  cbn in H1. now destruct s.
Qed.

Lemma last_dot_append (stem ext : string) :
  last_dot ext = None ->
  last_dot (stem ++ "." ++ ext) = Some (stem, ext).
Proof.
  intros H. induction stem as [|c stem IH].
  - cbn. now rewrite H.
  - cbn [append last_dot] in *. now rewrite IH.
Qed.

(** X12: the base name is what stands before the last dot: for an
    extension without a dot, the base name of [stem.ext] is [stem],
    whatever dots and slashes [stem] holds, and a name without a dot is its
    own base name. *)
Theorem base_name_of_stem_and_extension (stem ext : string) :
  contains "." ext = false ->
  base_name (stem ++ "." ++ ext) = stem /\ base_name ext = ext.
Proof.
  intros H. apply last_dot_without_dot in H.
  unfold base_name, rsplit_dot_1.
  now rewrite (last_dot_append stem ext H), H.
Qed.

(** X12, at a dump in a directory with a dot in its name. *)
Lemma base_name_of_stem_and_extension_witness :
  contains "." "log" = false
  /\ base_name ("obj.d/cp_files" ++ "." ++ "log") = "obj.d/cp_files"
  /\ base_name "log" = "log".
Proof.
  split; [reflexivity|].
  apply (base_name_of_stem_and_extension "obj.d/cp_files" "log").
  reflexivity.
Defined.

(** *** The lines of a file *)

(** X13: splitting loses nothing and leaves no newline behind: there is
    at least one line, no line holds a newline, and the lines joined by
    newlines are the text that was read. *)
Theorem split_newline_lines (log : string) :
  split_newline log <> []
  /\ Forall (fun l => one_line l = true) (split_newline log)
  /\ unlines (split_newline log) = log.
Proof.
  split; [|split].
  - destruct log as [|c log]; cbn [split_newline]; [discriminate|].
    destruct (Ascii.eqb c newline); [discriminate|].
    destruct (split_newline log); discriminate.
  - apply split_newline_one_line.
  - induction log as [|c log IH]; [reflexivity|].
    cbn [split_newline].
    destruct (Ascii.eqb_spec c newline) as [->|Hc].
    + unfold unlines in *. cbn [String.concat].
      destruct (split_newline log) as [|l ls] eqn:E.
      * destruct log as [|d log]; cbn [split_newline] in E; [discriminate E|].
        destruct (Ascii.eqb d newline); [discriminate E|].
        destruct (split_newline log); discriminate E.
      * now rewrite <- IH.
    + destruct (split_newline log) as [|l ls] eqn:E.
      * destruct log as [|d log]; cbn [split_newline] in E; [discriminate E|].
        destruct (Ascii.eqb d newline); [discriminate E|].
        destruct (split_newline log); discriminate E.
      * unfold unlines in *. cbn [String.concat] in *.
        destruct ls as [|l' ls]; now rewrite <- IH.
Qed.

(** *** Scanning in two parts *)

(** X14: a scan of two runs of lines is the scan of the first followed
    by the scan of the second from the state the first ends in; when the
    first raises, its output and its exception are those of the whole and
    the second run is not scanned. *)
Theorem scan_lines_in_two_parts
        (fn : string) (l1 l2 : list string) (st : ScanState)
        (out : list string) (r : exn + ScanState) :
  scan_lines fn l1 st = (out, r) ->
  scan_lines fn (l1 ++ l2) st =
  match r with
  | inl e => (out, inl e)
  | inr st' =>
      (out ++ stdout (scan_lines fn l2 st'), result (scan_lines fn l2 st'))
  end.
Proof.
  intros H. rewrite scan_lines_app, H. destruct r as [e|st']; [reflexivity|].
  cbn [bind]. now destruct (scan_lines fn l2 st').
Qed.

(** X14, at a scan that raises in its first part. *)
Lemma scan_lines_in_two_parts_witness :
  scan_lines "foo.log"
    ["  procedure name = foo"; "  OPEN(unit=10)"; "  attributes: IMPLICIT-TYPE"]
    init_state =
    ([("foo.log: direct call to OPEN in procedure " ++ dq ++ "foo'")%string],
     inl TypeError)
  /\ scan_lines "foo.log"
       (["  procedure name = foo"; "  OPEN(unit=10)";
         "  attributes: IMPLICIT-TYPE"] ++ ["  CLOSE(10)"])
       init_state =
     ([("foo.log: direct call to OPEN in procedure " ++ dq ++ "foo'")%string],
      inl TypeError).
Proof.
  split; [reflexivity|].
  apply (scan_lines_in_two_parts "foo.log"
           ["  procedure name = foo"; "  OPEN(unit=10)";
            "  attributes: IMPLICIT-TYPE"]
           ["  CLOSE(10)"] init_state
           [("foo.log: direct call to OPEN in procedure " ++ dq ++ "foo'")%string]
           (inl TypeError)).
  reflexivity.
Defined.

(** *** How much a scan prints *)

Lemma length_stdout_when_print {A : Type} (b : bool) (m : M unit) (a : A) :
  length (stdout m) <= 1 ->
  length (stdout (when b m ;; ret a)) <= 1.
Proof.
  intros H. destruct b; [|cbn; lia].
  cbn [when]. destruct m as [out [e|[]]]; cbn in *; [exact H|].
  now rewrite app_nil_r.
Qed.

Lemma length_stdout_symbol_msg (fn : string) (st : ScanState) (what : string) :
  length (stdout (print_symbol_msg fn st what)) <= 1.
Proof.
  unfold print_symbol_msg, str_add.
  destruct (curr_symbol st); [|cbn; lia].
  rewrite bind_ret_l. destruct (curr_procedure st); [|cbn; lia].
  rewrite bind_ret_l. cbn. lia.
Qed.

Lemma length_stdout_call_msg (fn : string) (st : ScanState) (what : string) :
  length (stdout (print_call_msg fn st what)) <= 1.
Proof.
  unfold print_call_msg, str_add.
  destruct (curr_procedure st); [|cbn; lia].
  rewrite bind_ret_l. cbn. lia.
Qed.

Lemma length_stdout_bind {A B : Type} (m : M A) (f : A -> M B) (n k : nat) :
  length (stdout m) <= n -> (forall a, length (stdout (f a)) <= k) ->
  length (stdout (bind m f)) <= n + k.
Proof.
  intros Hm Hf. destruct m as [out [e|a]]; cbn in *; [lia|].
  specialize (Hf a). destruct (f a) as [out' r]. cbn in *.
  rewrite length_app. lia.
Qed.

Lemma length_stdout_loop_body (fn : string) (st : ScanState) (line : string) :
  length (stdout (loop_body fn st line)) <= max_messages line.
Proof.
  unfold max_messages, open_or_close.
  destruct (re_attr line) as [g|] eqn:Ha.
  - rewrite loop_body_attr by congruence. cbn [matched].
    apply (length_stdout_bind _ _ 1 1).
    + destruct (_ && _); [apply length_stdout_symbol_msg|cbn; lia].
    + intros _. apply length_stdout_when_print, length_stdout_symbol_msg.
  - cbn [matched]. destruct (re_open line) as [u|] eqn:Ho.
    + rewrite loop_body_open by congruence. cbn [matched orb].
      apply length_stdout_when_print, length_stdout_call_msg.
    + destruct (re_close line) as [u|] eqn:Hc.
      * rewrite loop_body_close by congruence. cbn [matched orb].
        apply length_stdout_when_print, length_stdout_call_msg.
      * cbn [matched orb]. unfold loop_body.
        destruct (re_procedure line); [cbn; lia|].
        destruct (re_symbol line); [cbn; lia|].
        rewrite checks_plain by assumption. cbn. lia.
Qed.

(** X15: a scan prints at most two messages for each attributes line
    and one for each [OPEN] or [CLOSE] line, and none for the other
    lines. *)
Theorem scan_output_bound (fn : string) (lines : list string) (st : ScanState) :
  length (stdout (scan_lines fn lines st)) <= list_sum (map max_messages lines).
Proof.
  revert st. induction lines as [|l lines IH]; intros st; [cbn; lia|].
  rewrite scan_lines_cons. cbn [map list_sum].
  apply length_stdout_bind; [apply length_stdout_loop_body|exact IH].
Qed.
